(** * A shallow embedding of pyfileversion's [fileVersion.py]

    The model follows the module top to bottom: the algorithm registry and
    [HashObject], the process-wide [_HASHOBJ], [FileVersion],
    [VersionTable] and [VersionManager] with its [compare] and the
    classification of [versionReport].

    Modelling choices:
    - A hash backend is an opaque function [backend name payload] giving the
      rendered hex digest.  Both hashlib objects and [HashWrapper] compute
      the digest of the concatenation of all [update] payloads, so an
      incremental hasher is the list of its payloads ([soFar]).
    - A file is the list of its lines, each with its terminator, as
      iterated by [for line in inFile]; the file system is a [gmap] from
      path to content, and [os.path.exists p] is membership in it.
    - Python [set]s of paths become duplicate-free lists; the three loops of
      [compare] write disjoint keys, so the order in which Python iterates a
      set does not change the final [diffs] mapping.
    - A raised exception is the [exn] component of a result.
    - The Python installation (the names in [hashlib.algorithms_available],
      the optional modules that import, the hashers of [pyhash]) is a
      parameter [env] of [HashObject_init] and [VersionManager.__init__].
    - Python 3 (3.6 or later) semantics.

    Scope: [build] is modelled where it returns. Every tracked path that
    exists is taken to be a readable text file; [open] on a directory, an
    unreadable file and a decoding error are outside the model. Under
    Python 3 [build] encodes every line to [bytes], which
    [HashWrapper.hexdigest] ([mmh3] and [pyhash] algorithms) then joins
    with the empty [str] separator, a [TypeError] for a non-empty file; and
    [hexdigest()] of [shake_128]/[shake_256] needs a length, a [TypeError]
    at the first line. The statements about [build] hold for the other
    algorithms. *)

From Stdlib Require Import String Ascii.
From stdpp Require Import base list gmap strings sorting.

(** ** Exceptions raised by the module *)

Inductive exn :=
| RuntimeError (msg : string)
| TypeError
| KeyError
| AttributeError
(* [import module] failed *)
| ImportError (module : string)
(* [eval(expr)] raised (AttributeError, NameError, TypeError or SyntaxError,
   depending on the text) *)
| EvalError (expr : string).

(** ** Python's [repr] of a string

    A Rocq [string] is read as a Python [str] whose code points are its
    bytes (0-255). [repr] encloses the text in single quotes, or in double
    quotes when it holds a single quote and no double quote; it escapes the
    enclosing quote and the backslash with a backslash, writes tab, newline
    and carriage return as the escapes t, n and r, and every other
    non-printable code point below 256 (0-31, 127-160 and 173) as a [x]
    escape with two lowercase hex digits. *)

Definition py_printable (c : ascii) : bool :=
  let n := nat_of_ascii c in
  ((32 <=? n) && (n <=? 126)) || ((161 <=? n) && negb (n =? 173)).

Definition hex_digit (n : nat) : ascii :=
  ascii_of_nat (if n <? 10 then 48 + n else 87 + n).

Fixpoint py_repr_body (quote : ascii) (s : string) : string :=
  match s with
  | EmptyString => EmptyString
  | String c rest =>
      let n := nat_of_ascii c in
      let r := py_repr_body quote rest in
      if Ascii.eqb c quote || (n =? 92) then String "\"%char (String c r)
      else if n =? 9 then String "\"%char (String "t"%char r)
      else if n =? 10 then String "\"%char (String "n"%char r)
      else if n =? 13 then String "\"%char (String "r"%char r)
      else if py_printable c then String c r
      else String "\"%char (String "x"%char
             (String (hex_digit (n / 16)) (String (hex_digit (n mod 16)) r)))
  end.

Definition py_has (c : ascii) (s : string) : bool :=
  existsb (Ascii.eqb c) (list_ascii_of_string s).

Definition py_repr (s : string) : string :=
  let squote := ascii_of_nat 39 in
  let dquote := ascii_of_nat 34 in
  let quote := if py_has squote s && negb (py_has dquote s) then dquote else squote in
  String quote (py_repr_body quote s ++ String quote EmptyString).

(** ** The algorithm registry (lines 16-20) *)

Definition PYHASH_ALGORITHMS : list string :=
  ["city_128"; "city_64"; "fnv1_32"; "fnv1_64"; "fnv1a_32"; "fnv1a_64";
   "logging"; "lookup3"; "lookup3_big"; "lookup3_little"; "murmur1_32";
   "murmur1_aligned_32"; "murmur2_32"; "murmur2_aligned_32";
   "murmur2_neutral_32"; "murmur2_x64_64a"; "murmur2_x86_64b"; "murmur2a_32";
   "murmur3_32"; "murmur3_x64_128"; "murmur3_x86_128"; "spooky_128";
   "spooky_32"; "spooky_64"; "super_fast_hash"]%string.

Definition XXHASH_ALGORITHMS : list string := ["xxh32"; "xxh64"]%string.

Definition WRAPPED_ALGORITHMS : list string := PYHASH_ALGORITHMS ++ ["mmh3"%string].

(** What the module sees of the Python installation: [hashlib]'s
    [algorithms_available] (which depends on the OpenSSL build), the
    optional modules that can be imported ([xxhash], [mmh3], [pyhash]), and
    the names [n] for which [pyhash.n()] builds a hasher. *)
Record PyEnv := mkPyEnv {
  algorithms_available : list string;
  importable : list string;
  pyhash_hashers : list string
}.

(** [_HASHLIB_ALGORITHMS = list(hashlib.algorithms_available)]. *)
Definition HASHLIB_ALGORITHMS (env : PyEnv) : list string := algorithms_available env.

Definition ALGORITHMS (env : PyEnv) : list string :=
  PYHASH_ALGORITHMS ++ XXHASH_ALGORITHMS ++ HASHLIB_ALGORITHMS env ++ ["mmh3"%string].

(** The constructors that [hashlib] has as attributes (Python 3.6 and later:
    the names of [hashlib.algorithms_guaranteed]). [eval("hashlib.n")]
    succeeds exactly for these names; for another name of
    [algorithms_available] it raises ([AttributeError] for [sha512_224],
    [NameError] for [md5-sha1]). *)
Definition HASHLIB_CONSTRUCTORS : list string :=
  ["md5"; "sha1"; "sha224"; "sha256"; "sha384"; "sha512"; "blake2b"; "blake2s";
   "sha3_224"; "sha3_256"; "sha3_384"; "sha3_512"; "shake_128"; "shake_256"]%string.

(** The extendable-output functions, whose [hexdigest()] needs a length. *)
Definition XOF_ALGORITHMS : list string := ["shake_128"; "shake_256"]%string.

(** Python's [x in l] on a list of strings. *)
Definition py_in (x : string) (l : list string) : bool :=
  existsb (String.eqb x) l.

(** ** [HashObject] (lines 35-64)

    [ho_backend] names the function that [hashObj] and [newEntrypoint]
    really call: note that both xxhash names are served by [xxhash.xxh64]. *)

Record HashObject := mkHashObject {
  ho_algorithm : string;
  ho_backend : string
}.

Definition HashObject_init (env : PyEnv) (algorithm : string) : exn + HashObject :=
  if py_in algorithm (HASHLIB_ALGORITHMS env) then
    if py_in algorithm HASHLIB_CONSTRUCTORS then inr (mkHashObject algorithm algorithm)
    else inl (EvalError ("hashlib." ++ algorithm))
  else if py_in algorithm XXHASH_ALGORITHMS then
    if py_in "xxhash" (importable env) then inr (mkHashObject algorithm "xxh64")
    else inl (ImportError "xxhash")
  else if String.eqb algorithm "mmh3" then
    if py_in "mmh3" (importable env) then inr (mkHashObject algorithm "mmh3")
    else inl (ImportError "mmh3")
  else if py_in algorithm PYHASH_ALGORITHMS then
    if py_in "pyhash" (importable env) then
      if py_in algorithm (pyhash_hashers env) then inr (mkHashObject algorithm algorithm)
      else inl (EvalError ("pyhash." ++ algorithm ++ "()"))
    else inl (ImportError "pyhash")
  else inl (RuntimeError ("Could not find hash algorithm " ++ py_repr algorithm)).

(** ** Data of the module *)

(** [FileVersion] (lines 67-82); [processLineCallback] is not a field: the
    only caller that sets it, [VersionTable.build], is modelled by threading
    the table's hasher through [FileVersion_build]. *)
Record FileVersion := mkFileVersion {
  fv_hashAlgorithm : string;
  fv_filePath : string;
  fv_version : option string;
  fv_lineHash : gmap string nat   (* {hash : lineno} *)
}.

(** [VersionTable] (lines 102-146). [fileVersions] and [version] start as
    [None]. *)
Record VersionTable := mkVersionTable {
  vt_fileList : list string;
  vt_hashAlgorithm : string;
  vt_fileVersions : option (gmap string FileVersion);
  vt_version : option string
}.

(** The persisted record of [VersionTable.normalize] / [FileVersion.normalize]. *)
Record NormFile := mkNormFile {
  n_filePath : string;
  n_version : option string;
  n_lineHash : gmap string nat
}.

Record VRecord := mkVRecord {
  r_version : option string;
  r_hashAlgorithm : string;
  r_fileList : list string;
  r_files : gmap string NormFile
}.

(** The [DiffFile] namedtuple of [compare] (line 187). *)
Record DiffFile := mkDiffFile {
  missing : bool;
  new : bool;
  modifiedLines : list nat;
  missingLines : list nat
}.

Record VersionManager := mkVersionManager {
  revisionFileName : string;
  curVersions : VersionTable;
  lastVersions : VersionTable;
  doWrite : bool;
  diffs : option (gmap string DiffFile)
}.

(** The file system: path to the lines of the file. *)
Abbreviation FileSystem := (gmap string (list string)).

Definition os_path_exists (fs : FileSystem) (p : string) : bool :=
  bool_decide (is_Some (fs !! p)).

(** ** Python's [sorted] on strings: code-point lexicographic order, which
    is stdpp's [String.le] on ASCII strings. *)

Definition sorted (l : list string) : list string :=
  merge_sort stdpp.strings.String.le l.

Section Model.

(** The hash backends: [backend name payload] is the hex digest rendered by
    the module for the backend [name] on [payload]. *)
Variable backend : string -> string -> string.

(** [HashObject.hash] (lines 61-64). *)
Definition HashObject_hash (h : HashObject) (payload : string) : string :=
  backend (ho_backend h) payload.

(** Incremental hashers: [HashObject.new()], [update], [hexdigest]. *)
Record Hasher := mkHasher {
  hs_backend : string;
  soFar : list string
}.

Definition HashObject_new (h : HashObject) : Hasher :=
  mkHasher (ho_backend h) [].

Definition Hasher_update (x : Hasher) (payload : string) : Hasher :=
  mkHasher (hs_backend x) (soFar x ++ [payload]).

Definition Hasher_hexdigest (x : Hasher) : string :=
  backend (hs_backend x) (String.concat "" (soFar x)).

(** [FileVersion.__init__] with the defaults [version=None, lineHash=None]. *)
Definition FileVersion_init (filePath hashAlgorithm : string) : FileVersion :=
  mkFileVersion hashAlgorithm filePath None ∅.

(** The [for line in inFile] loop of [FileVersion.build] (lines 88-92) with
    [_processLine] (lines 95-99); [_HASHOBJ] is [g], [fileHashObj] the file
    hasher, [lineHash] the map being filled and [cb] the hasher of the
    table that [processLineCallback] updates. *)
Fixpoint build_lines (g : HashObject) (lines : list string) (lineno : nat)
    (fileHashObj : Hasher) (lineHash : gmap string nat) (cb : Hasher)
    : Hasher * gmap string nat * Hasher :=
  match lines with
  | [] => (fileHashObj, lineHash, cb)
  | line :: rest =>
      let fileHashObj' := Hasher_update fileHashObj line in
      let theHash := HashObject_hash g line in
      let lineHash' := <[theHash := lineno]> lineHash in
      let cb' := Hasher_update cb line in
      build_lines g rest (S lineno) fileHashObj' lineHash' cb'
  end.

(** [FileVersion.build] (lines 84-93) on the content [lines] of the file. *)
Definition FileVersion_build (g : HashObject) (fv : FileVersion)
    (lines : list string) (cb : Hasher) : FileVersion * Hasher :=
  match build_lines g lines 1 (HashObject_new g) (fv_lineHash fv) cb with
  | (fileHashObj, lineHash, cb') =>
      (mkFileVersion (fv_hashAlgorithm fv) (fv_filePath fv)
         (Some (Hasher_hexdigest fileHashObj)) lineHash, cb')
  end.

(** [VersionTable.__init__] (lines 104-108). *)
Definition VersionTable_init (fileList : list string) (hashAlgorithm : string)
    : VersionTable :=
  mkVersionTable (sorted fileList) hashAlgorithm None None.

(** The loop of [VersionTable.build] (lines 126-132). The file system does
    not change during the loop, so a path that exists can be opened. *)
Fixpoint build_files (g : HashObject) (fs : FileSystem) (hashAlgorithm : string)
    (paths : list string) (fvs : gmap string FileVersion) (cb : Hasher)
    : gmap string FileVersion * Hasher :=
  match paths with
  | [] => (fvs, cb)
  | filePath :: rest =>
      match fs !! filePath with
      | None => build_files g fs hashAlgorithm rest fvs cb
      | Some lines =>
          let '(fileObj, cb') :=
            FileVersion_build g (FileVersion_init filePath hashAlgorithm) lines cb in
          build_files g fs hashAlgorithm rest (<[filePath := fileObj]> fvs) cb'
      end
  end.

(** [VersionTable.build] (lines 123-133), run with the current [_HASHOBJ]. *)
Definition VersionTable_build (g : HashObject) (fs : FileSystem) (t : VersionTable)
    : VersionTable :=
  let '(fvs, hashObj) :=
    build_files g fs (vt_hashAlgorithm t) (vt_fileList t) ∅ (HashObject_new g) in
  mkVersionTable (vt_fileList t) (vt_hashAlgorithm t) (Some fvs)
    (Some (Hasher_hexdigest hashObj)).

End Model.

(** [FileVersion.normalize] (lines 79-82). *)
Definition FileVersion_normalize (fv : FileVersion) : NormFile :=
  mkNormFile (fv_filePath fv) (fv_version fv) (fv_lineHash fv).

(** [VersionTable.normalize] (lines 138-146); before [build] or [read],
    [fileVersions] is [None] and [.items()] raises. *)
Definition VersionTable_normalize (t : VersionTable) : exn + VRecord :=
  match vt_fileVersions t with
  | None => inl AttributeError
  | Some fvs =>
      inr (mkVRecord (vt_version t) (vt_hashAlgorithm t) (vt_fileList t)
             (FileVersion_normalize <$> fvs))
  end.

(** [FileVersion(filePath, version, lineHash, hashAlgorithm)] as called by
    [VersionTable.read]: [lineHash if lineHash else {}]. *)
Definition FileVersion_of_norm (hashAlgorithm : string) (n : NormFile) : FileVersion :=
  mkFileVersion hashAlgorithm (n_filePath n) (n_version n)
    (if decide (n_lineHash n = ∅) then ∅ else n_lineHash n).

(** [VersionTable.read] (lines 110-121): entries whose path no longer exists
    are dropped. *)
Definition VersionTable_read (fs : FileSystem) (obj : VRecord) (t : VersionTable)
    : VersionTable :=
  mkVersionTable (r_fileList obj) (r_hashAlgorithm obj)
    (Some (filter (fun kv : string * FileVersion => os_path_exists fs kv.1 = true)
             (FileVersion_of_norm (r_hashAlgorithm obj) <$> r_files obj)))
    (r_version obj).

(** ** [VersionManager] (lines 150-287) *)

(** [VersionManager.__init__] (lines 152-161): it first replaces the
    process-wide [_HASHOBJ], which is returned next to the manager. *)
Definition VersionManager_init (env : PyEnv) (revisionFileName_ : string) (fileList : list string)
    (hashAlgorithm : string) (write : bool) : exn + (HashObject * VersionManager) :=
  match HashObject_init env hashAlgorithm with
  | inl e => inl e
  | inr g =>
      inr (g, mkVersionManager revisionFileName_
                (VersionTable_init fileList hashAlgorithm)
                (VersionTable_init [] hashAlgorithm) write None)
  end.

Definition set_curVersions (m : VersionManager) (t : VersionTable) : VersionManager :=
  mkVersionManager (revisionFileName m) t (lastVersions m) (doWrite m) (diffs m).

Definition set_lastVersions (m : VersionManager) (t : VersionTable) : VersionManager :=
  mkVersionManager (revisionFileName m) (curVersions m) t (doWrite m) (diffs m).

Definition set_diffs (m : VersionManager) (d : gmap string DiffFile) : VersionManager :=
  mkVersionManager (revisionFileName m) (curVersions m) (lastVersions m) (doWrite m)
    (Some d).

(** [VersionManager.read] (lines 163-170); [revision] is the parsed content
    of [revisionFileName], [None] when that file does not exist. *)
Definition VersionManager_read (fs : FileSystem) (revision : option VRecord)
    (m : VersionManager) : VersionManager :=
  match revision with
  | None => m
  | Some obj => set_lastVersions m (VersionTable_read fs obj (lastVersions m))
  end.

(** [self.build = self.curVersions.build], run with the current [_HASHOBJ]. *)
Definition VersionManager_build (backend : string -> string -> string)
    (g : HashObject) (fs : FileSystem) (m : VersionManager) : VersionManager :=
  set_curVersions m (VersionTable_build backend g fs (curVersions m)).

(** The truth value of a [VersionTable] instance: the class defines neither
    [__bool__] nor [__len__], so every instance is true. *)
Definition py_truthy_table (t : VersionTable) : bool := true.

(** The digests of [a] that are not digests of [b] ([a.keys() - b.keys()]). *)
Definition keys_minus (a b : gmap string nat) : list string :=
  filter (fun k => b !! k = None) (map fst (map_to_list a)).

Definition missing_new : DiffFile := mkDiffFile true true [] [].

(** The body of the loop over [overlappingFiles] (lines 213-238). The
    lookups of line 216 come before those of line 217, and a [None] table
    is not subscriptable ([TypeError], not caught by [except KeyError]).
    Every digest of [modifiedLines] / [missingLines] is a key of its table,
    so the lookups of lines 237-238 always succeed. *)
Definition overlap_entry (m : VersionManager) (filePath : string) : exn + DiffFile :=
  match vt_fileVersions (lastVersions m) with
  | None => inl TypeError
  | Some lfvs =>
      match lfvs !! filePath with
      | None => inr missing_new
      | Some lfv =>
          match vt_fileVersions (curVersions m) with
          | None => inl TypeError
          | Some cfvs =>
              match cfvs !! filePath with
              | None => inr missing_new
              | Some cfv =>
                  let lastLines := fv_lineHash lfv in
                  let curLines := fv_lineHash cfv in
                  let modified := sorted (keys_minus curLines lastLines) in
                  let missing_ := sorted (keys_minus lastLines curLines) in
                  inr (mkDiffFile false false
                         (omap (fun hsh => curLines !! hsh) modified)
                         (omap (fun hsh => lastLines !! hsh) missing_))
              end
          end
      end
  end.

(** The loop over [overlappingFiles]; an exception leaves the entries
    written so far in [self.diffs]. *)
Fixpoint overlap_loop (m : VersionManager) (paths : list string)
    (d : gmap string DiffFile) : option exn * gmap string DiffFile :=
  match paths with
  | [] => (None, d)
  | filePath :: rest =>
      match overlap_entry m filePath with
      | inl e => (Some e, d)
      | inr df => overlap_loop m rest (<[filePath := df]> d)
      end
  end.

Definition new_entry (fs : FileSystem) (filePath : string) : DiffFile :=
  mkDiffFile (negb (os_path_exists fs filePath)) true [] [].

Definition removed_entry : DiffFile := mkDiffFile true false [] [].

(** [VersionManager.compare] (lines 180-238): the exception raised, if
    any, and the manager afterwards. *)
Definition compare (fs : FileSystem) (m : VersionManager) : option exn * VersionManager :=
  if negb (forallb py_truthy_table [curVersions m; lastVersions m]) then
    (Some (RuntimeError "Must call read() and build() to compare versions."), m)
  else if negb (String.eqb (vt_hashAlgorithm (curVersions m))
                           (vt_hashAlgorithm (lastVersions m))) then
    (Some (RuntimeError "read() and build() hash algorithms differ."), m)
  else
    let lastFileSet := remove_dups (vt_fileList (lastVersions m)) in
    let curFileSet := remove_dups (vt_fileList (curVersions m)) in
    let newFiles := filter (fun p => p ∉ lastFileSet) curFileSet in
    let removedFiles := filter (fun p => p ∉ curFileSet) lastFileSet in
    let overlappingFiles := filter (fun p => p ∈ lastFileSet) curFileSet in
    let d0 := foldl (fun d p => <[p := new_entry fs p]> d) ∅ newFiles in
    let d1 := foldl (fun d p => <[p := removed_entry]> d) d0 removedFiles in
    let '(err, d2) := overlap_loop m overlappingFiles d1 in
    (err, set_diffs m d2).

(** The verdict [versionReport] prints for one entry (lines 269-285),
    [None] when nothing is printed. *)
Definition versionReport_label (showUnchanged : bool) (diffObj : DiffFile)
    : option string :=
  if missing diffObj && new diffObj then Some "[new & missing]"%string
  else if missing diffObj then Some "[missing]"%string
  else if new diffObj then Some "[new]"%string
  else if (length (modifiedLines diffObj) =? 0) && (length (modifiedLines diffObj) =? 0)
  then (if showUnchanged then Some "[unchanged]"%string else None)
  else Some "[modified]"%string.

(** [VersionManager.write] (lines 172-178): the table is built first if it
    has no [version] yet; the result is the record passed to [json.dump]
    and the manager afterwards. *)
Definition VersionManager_write (backend : string -> string -> string)
    (g : HashObject) (fs : FileSystem) (m : VersionManager)
    : exn + (VRecord * VersionManager) :=
  let m' := match vt_version (curVersions m) with
            | None => VersionManager_build backend g fs m
            | Some _ => m
            end in
  match VersionTable_normalize (curVersions m') with
  | inl e => inl e
  | inr obj => inr (obj, m')
  end.

(** [VersionManager.__enter__] (lines 240-244): [read()], [build()],
    [compare()]; [revision] is the content of the revision file, [None] when
    it does not exist. *)
Definition VersionManager_enter (backend : string -> string -> string)
    (g : HashObject) (fs : FileSystem) (revision : option VRecord)
    (m : VersionManager) : option exn * VersionManager :=
  compare fs (VersionManager_build backend g fs (VersionManager_read fs revision m)).

(** [VersionManager.__exit__] (lines 246-248): the record written, if any;
    [revision_exists] is [os.path.exists(self.revisionFileName)] and a
    string is true when it is not empty. *)
Definition VersionManager_exit (backend : string -> string -> string)
    (g : HashObject) (fs : FileSystem) (revision_exists : bool)
    (m : VersionManager) : exn + option (VRecord * VersionManager) :=
  if negb (String.eqb (revisionFileName m) "") && (doWrite m || revision_exists) then
    match VersionManager_write backend g fs m with
    | inl e => inl e
    | inr rm => inr (Some rm)
    end
  else inr None.

(** [VersionManager.hasVersionChanged] (lines 250-251). *)
Definition hasVersionChanged (m : VersionManager) : bool :=
  negb (bool_decide (vt_version (curVersions m) = vt_version (lastVersions m))).

(** [VersionManager.getVersion] (lines 253-254). *)
Definition getVersion (m : VersionManager) : option string :=
  vt_version (curVersions m).

(** The result of [getFileVersions]: the text, or the mapping handed to
    [json.dumps] (its rendering is not modelled). *)
Inductive FileVersionsOutput :=
| FVText (text : string)
| FVJson (versions : gmap string (option string)).

(** The line terminator "\n". *)
Definition nl : string := String (ascii_of_nat 10) EmptyString.
(** The double-quote character. *)
Definition dq : string := String (ascii_of_nat 34) EmptyString.

(** Python's [str] of [None] or of a string. *)
Definition py_str_opt (o : option string) : string :=
  match o with Some s => s | None => "None"%string end.

(** [VersionManager.getFileVersions] (lines 256-264). The mapping is built
    before [format] is tested, so a table that was never built raises first
    ([None.items()]). The lines of the text come in the iteration order of
    the mapping, which is taken as the key order of the [gmap]. *)
Definition getFileVersions (m : VersionManager) (format : string)
    : exn + FileVersionsOutput :=
  match vt_fileVersions (curVersions m) with
  | None => inl AttributeError
  | Some fvs =>
      let versions := fv_version <$> fvs in
      if String.eqb format "text" then
        inr (FVText (String.concat nl
               (map (fun '(filePath, v) => (py_str_opt v ++ "  " ++ filePath)%string)
                  (map_to_list versions))))
      else if String.eqb format "json" then inr (FVJson versions)
      else inl (RuntimeError ("Unknown format " ++ py_repr format))
  end.

(** ** Concrete instances used by the examples *)

(** A hash backend that agrees with MD5 on the lines ["a\n"] and ["b\n"]
    and renders any other input symbolically. *)
Definition md5_sample (name payload : string) : string :=
  if String.eqb name "md5" then
    if String.eqb payload ("a" ++ nl) then "60b725f10c9c85c70d97880dfe8191b3"%string
    else if String.eqb payload ("b" ++ nl) then "3b5d5c3712955042212316173ccf37be"%string
    else ("md5(" ++ payload ++ ")")%string
  else (name ++ "(" ++ payload ++ ")")%string.

(** ** Views used in the statements *)

(** The [lineHash] that the loop of [FileVersion.build] leaves, with the
    hashers left out (they do not influence it). *)
Fixpoint lineHash_fold (backend : string -> string -> string) (g : HashObject)
    (lines : list string) (lineno : nat) (lineHash : gmap string nat)
    : gmap string nat :=
  match lines with
  | [] => lineHash
  | line :: rest =>
      lineHash_fold backend g rest (S lineno)
        (<[HashObject_hash backend g line := lineno]> lineHash)
  end.

(** The [FileVersion] that [VersionTable.build] stores for a path with
    content [lines]. *)
Definition built_fv (backend : string -> string -> string) (g : HashObject)
    (hashAlgorithm filePath : string) (lines : list string) : FileVersion :=
  mkFileVersion hashAlgorithm filePath
    (Some (backend (ho_backend g) (String.concat "" lines)))
    (lineHash_fold backend g lines 1 ∅).

(** All lines fed to the composite hasher by [VersionTable.build]. *)
Definition table_lines (fs : FileSystem) (paths : list string) : list string :=
  mjoin (omap (fun p => fs !! p) paths).

(** The entry that the loop over [overlappingFiles] writes for a path when
    no exception occurs. *)
Definition entry_or (m : VersionManager) (filePath : string) : DiffFile :=
  match overlap_entry m filePath with
  | inr df => df
  | inl _ => missing_new
  end.

(** The entry that [compare] computes for a file whose previous content was
    [l1] and whose current content is [l2], both built with [g]. *)
Definition line_diff (backend : string -> string -> string) (g : HashObject)
    (l1 l2 : list string) : DiffFile :=
  let lastLines := lineHash_fold backend g l1 1 ∅ in
  let curLines := lineHash_fold backend g l2 1 ∅ in
  mkDiffFile false false
    (omap (fun hsh => curLines !! hsh) (sorted (keys_minus curLines lastLines)))
    (omap (fun hsh => lastLines !! hsh) (sorted (keys_minus lastLines curLines))).

(** ** Concrete scenarios *)

(** A CPython 3 installation on OpenSSL 3 with the three optional modules:
    its [algorithms_available] holds names that [hashlib] has no attribute
    for ([md5-sha1], [sha512_224], [sm3], ...). *)
Definition example_env : PyEnv :=
  mkPyEnv
    ["blake2b"; "blake2s"; "md5"; "md5-sha1"; "ripemd160"; "sha1"; "sha224";
     "sha256"; "sha384"; "sha3_224"; "sha3_256"; "sha3_384"; "sha3_512";
     "sha512"; "sha512_224"; "sha512_256"; "shake_128"; "shake_256"; "sm3"]%string
    ["xxhash"; "mmh3"; "pyhash"]%string
    PYHASH_ALGORITHMS.

Definition md5_obj : HashObject := mkHashObject "md5" "md5".
Definition sha1_obj : HashObject := mkHashObject "sha1" "sha1".

(** [VersionManager("rev", ["a.txt"])] right after construction. *)
Definition fresh_manager : VersionManager :=
  mkVersionManager "rev" (VersionTable_init ["a.txt"%string] "md5")
    (VersionTable_init [] "md5") false None.

(** [a.txt] empty, then [a.txt] = "a\nb\n". *)
Definition fs_a_empty : FileSystem := {[ "a.txt"%string := [] ]}.
Definition fs_a_ab : FileSystem := {[ "a.txt"%string := ["a" ++ nl; "b" ++ nl]%string ]}.

(** [a.txt] = "x\ny\n", then [a.txt] = "x\n". *)
Definition fs_a_xy : FileSystem := {[ "a.txt"%string := ["x" ++ nl; "y" ++ nl]%string ]}.
Definition fs_a_x : FileSystem := {[ "a.txt"%string := ["x" ++ nl]%string ]}.

(** The record persisted by [write()] after building on [fs], [None] if
    [normalize] raised. *)
Definition persisted (backend : string -> string -> string) (g : HashObject)
    (fs : FileSystem) (m : VersionManager) : option VRecord :=
  match VersionTable_normalize (VersionTable_build backend g fs (curVersions m)) with
  | inr r => Some r
  | inl _ => None
  end.

(** One run [read(); build(); compare()] on [fs] after a previous run that
    built and persisted its table on [fs_prev]. *)
Definition second_run (backend : string -> string -> string) (g : HashObject)
    (fs_prev fs : FileSystem) (m : VersionManager) : option exn * VersionManager :=
  compare fs (VersionManager_build backend g fs
                (VersionManager_read fs (persisted backend g fs_prev m) m)).

(** The entry of [path] in [diffs] after a run. *)
Definition diff_of (r : option exn * VersionManager) (path : string) : option DiffFile :=
  diffs r.2 ≫= (fun d => d !! path).

(** [VersionManager("rev", ["a.txt"], "sha1")] right after construction. *)
Definition sha1_manager : VersionManager :=
  mkVersionManager "rev" (VersionTable_init ["a.txt"%string] "sha1")
    (VersionTable_init [] "sha1") false None.

(** An MD5 manager that read the record a SHA-1 manager wrote, then built. *)
Definition mismatch_manager : VersionManager :=
  VersionManager_build md5_sample md5_obj fs_a_ab
    (VersionManager_read fs_a_ab (persisted md5_sample sha1_obj fs_a_ab sha1_manager)
       fresh_manager).

(** An MD5 manager that read the record of its previous run on [fs_prev],
    then built on [fs]. *)
Definition run_manager (fs_prev fs : FileSystem) : VersionManager :=
  VersionManager_build md5_sample md5_obj fs
    (VersionManager_read fs (persisted md5_sample md5_obj fs_prev fresh_manager)
       fresh_manager).

(** [a.txt] = "a\nb\n" with its two lines swapped. *)
Definition fs_a_ba : FileSystem := {[ "a.txt"%string := ["b" ++ nl; "a" ++ nl]%string ]}.

(** Four paths, one per case of [compare]: [a.txt] is tracked before and
    now and exists at both builds; [b.txt] is no longer tracked; [c.txt] is
    newly tracked; [d.txt] is tracked before and now but was deleted
    between the two runs. *)
Definition abd_manager : VersionManager :=
  mkVersionManager "rev" (VersionTable_init ["a.txt"; "b.txt"; "d.txt"]%string "md5")
    (VersionTable_init [] "md5") false None.
Definition acd_manager : VersionManager :=
  mkVersionManager "rev" (VersionTable_init ["a.txt"; "c.txt"; "d.txt"]%string "md5")
    (VersionTable_init [] "md5") false None.
Definition fs_abd : FileSystem :=
  {[ "a.txt"%string := ["a" ++ nl]%string; "b.txt"%string := ["b" ++ nl]%string;
     "d.txt"%string := ["d" ++ nl]%string ]}.
Definition fs_ac : FileSystem :=
  {[ "a.txt"%string := ["a" ++ nl]%string; "c.txt"%string := ["c" ++ nl]%string ]}.

(** The [acd_manager] that read, on [fs_abd], the record its predecessor
    [abd_manager] wrote there, and then built once [d.txt] was deleted and
    [c.txt] created. *)
Definition classify_manager : VersionManager :=
  VersionManager_build md5_sample md5_obj fs_ac
    (VersionManager_read fs_abd (persisted md5_sample md5_obj fs_abd abd_manager) acd_manager).

(** * Properties *)

(** ** The registry and [repr] on concrete inputs *)

Example py_repr_plain : py_repr "json" = "'json'"%string.
Proof. reflexivity. Qed.

Example py_repr_single_quote : py_repr "a'b" = (dq ++ "a'b" ++ dq)%string.
Proof. reflexivity. Qed.

Example py_repr_both_quotes : py_repr ("a'" ++ dq ++ "b") = ("'a\'" ++ dq ++ "b'")%string.
Proof. reflexivity. Qed.

Example py_repr_controls :
  py_repr (String (ascii_of_nat 9) (String (ascii_of_nat 0) (String (ascii_of_nat 160) EmptyString)))
  = "'\t\x00\xa0'"%string.
Proof. reflexivity. Qed.

Example HashObject_init_sha3_256 :
  HashObject_init example_env "sha3_256" = inr (mkHashObject "sha3_256" "sha3_256").
Proof. reflexivity. Qed.

Example HashObject_init_sha512_224 :
  HashObject_init example_env "sha512_224" = inl (EvalError "hashlib.sha512_224").
Proof. reflexivity. Qed.

Example HashObject_init_md5_sha1 :
  HashObject_init example_env "md5-sha1" = inl (EvalError "hashlib.md5-sha1").
Proof. reflexivity. Qed.

Example HashObject_init_without_xxhash :
  HashObject_init (mkPyEnv ["md5"%string] [] []) "xxh32" = inl (ImportError "xxhash").
Proof. reflexivity. Qed.

Example HashObject_init_unknown :
  HashObject_init example_env "crc32" = inl (RuntimeError "Could not find hash algorithm 'crc32'").
Proof. reflexivity. Qed.

Example getFileVersions_repr_message :
  getFileVersions (VersionManager_build md5_sample md5_obj fs_a_ab fresh_manager) "a'b"
  = inl (RuntimeError ("Unknown format " ++ dq ++ "a'b" ++ dq)).
Proof. vm_compute. reflexivity. Qed.

(** ** Facts about [compare], [read] and [normalize] *)

Lemma FileVersion_of_norm_normalize a fv :
  fv_hashAlgorithm fv = a -> FileVersion_of_norm a (FileVersion_normalize fv) = fv.
Proof.
  intros <-. destruct fv as [a p v lh]. unfold FileVersion_of_norm; simpl.
  case_decide; by subst.
Qed.

(** ** [compare] in closed form *)

Lemma foldl_insert_lookup {A} (f : string -> A) (ps : list string)
    (d0 : gmap string A) q :
  foldl (fun d p => <[p := f p]> d) d0 ps !! q =
  if decide (q ∈ ps) then Some (f q) else d0 !! q.
Proof.
  revert d0. induction ps as [|p ps IH]; intros d0; cbn [foldl].
  - case_decide; [set_solver|done].
  - rewrite IH. destruct (decide (q = p)) as [->|Hne].
    + rewrite lookup_insert_eq. case_decide; case_decide; set_solver.
    + rewrite lookup_insert_ne by congruence.
      case_decide; case_decide; try done; set_solver.
Qed.

Lemma overlap_entry_ok m p :
  is_Some (vt_fileVersions (curVersions m)) ->
  is_Some (vt_fileVersions (lastVersions m)) ->
  overlap_entry m p = inr (entry_or m p).
Proof.
  intros [cfvs Hc] [lfvs Hl]. unfold entry_or, overlap_entry.
  rewrite Hc, Hl. destruct (lfvs !! p); [|done]. by destruct (cfvs !! p).
Qed.

Lemma overlap_loop_ok m ps d :
  (forall p, p ∈ ps -> overlap_entry m p = inr (entry_or m p)) ->
  overlap_loop m ps d = (None, foldl (fun d p => <[p := entry_or m p]> d) d ps).
Proof.
  revert d. induction ps as [|p ps IH]; intros d Hps; cbn [overlap_loop foldl]; [done|].
  rewrite Hps by set_solver. apply IH. intros q Hq. apply Hps. set_solver.
Qed.

Lemma compare_lookup fs m :
  vt_hashAlgorithm (curVersions m) = vt_hashAlgorithm (lastVersions m) ->
  (forall p, p ∈ vt_fileList (curVersions m) -> p ∈ vt_fileList (lastVersions m) ->
     overlap_entry m p = inr (entry_or m p)) ->
  exists d, compare fs m = (None, set_diffs m d) /\
    forall p, d !! p =
      if decide (p ∈ vt_fileList (curVersions m)) then
        if decide (p ∈ vt_fileList (lastVersions m)) then Some (entry_or m p)
        else Some (new_entry fs p)
      else if decide (p ∈ vt_fileList (lastVersions m)) then Some removed_entry
      else None.
Proof.
  intros Halg Hov. unfold compare. cbn [forallb py_truthy_table negb andb].
  rewrite Halg, String.eqb_refl. cbn [negb].
  rewrite overlap_loop_ok.
  2:{ intros p Hp. rewrite list_elem_of_filter, !elem_of_remove_dups in Hp.
      apply Hov; tauto. }
  eexists; split; [reflexivity|]. intros p.
  rewrite (foldl_insert_lookup (entry_or m)).
  rewrite (foldl_insert_lookup (fun _ => removed_entry)).
  rewrite (foldl_insert_lookup (new_entry fs)), lookup_empty.
  repeat case_decide;
    rewrite ?list_elem_of_filter, ?elem_of_remove_dups in *; tauto.
Qed.

Lemma filter_all_false {A} (P : A -> Prop) `{forall x, Decision (P x)} (l : list A) :
  (forall x, x ∈ l -> ~ P x) -> filter P l = [].
Proof.
  induction l as [|x l IH]; intros Hl; [done|].
  rewrite filter_cons. case_decide as Hx.
  - exfalso. apply (Hl x); [set_solver|done].
  - apply IH. intros y Hy. apply Hl. set_solver.
Qed.

Lemma keys_minus_nil (a b : gmap string nat) :
  (forall k, is_Some (a !! k) -> is_Some (b !! k)) -> keys_minus a b = [].
Proof.
  intros Hab. unfold keys_minus. apply filter_all_false.
  intros k Hk Hb. apply list_elem_of_fmap in Hk as [[k' v] [-> Hkv]].
  apply elem_of_map_to_list in Hkv. simpl in Hb.
  destruct (Hab k') as [w Hw]; [by eexists|]. congruence.
Qed.

Lemma read_lookup fs (r : VRecord) tl p :
  vt_fileVersions (VersionTable_read fs r tl) ≫= (fun fvs => fvs !! p) =
  if os_path_exists fs p then FileVersion_of_norm (r_hashAlgorithm r) <$> r_files r !! p
  else None.
Proof.
  simpl. rewrite map_lookup_filter, lookup_fmap.
  destruct (r_files r !! p) as [n|]; simpl; [|by destruct (os_path_exists fs p)].
  rewrite option_guard_decide. simpl. by destruct (os_path_exists fs p).
Qed.

(** ** Claims on [compare] *)

(** C5: [compare()] classifies every path of the union of the two path
    lists: a path only in current is new, missing iff absent on disk; a path
    only in last is missing and not new; a path in both lists without a
    fingerprint in current is missing and new; all with empty line lists.
    Every path of the union gets an entry (a path in both lists with a
    fingerprint in current gets its line comparison), and no other path.
    The current table has been built and the last one read, or left empty
    because no revision file existed. *)
Theorem compare_classification fs m :
  vt_hashAlgorithm (curVersions m) = vt_hashAlgorithm (lastVersions m) ->
  is_Some (vt_fileVersions (curVersions m)) ->
  is_Some (vt_fileVersions (lastVersions m)) \/ vt_fileList (lastVersions m) = [] ->
  exists d, compare fs m = (None, set_diffs m d) /\
    (forall p, p ∈ vt_fileList (curVersions m) -> p ∉ vt_fileList (lastVersions m) ->
       d !! p = Some (mkDiffFile (negb (os_path_exists fs p)) true [] [])) /\
    (forall p, p ∉ vt_fileList (curVersions m) -> p ∈ vt_fileList (lastVersions m) ->
       d !! p = Some (mkDiffFile true false [] [])) /\
    (forall p, p ∈ vt_fileList (curVersions m) -> p ∈ vt_fileList (lastVersions m) ->
       vt_fileVersions (curVersions m) ≫= (fun fvs => fvs !! p) = None ->
       d !! p = Some (mkDiffFile true true [] [])) /\
    (forall p, p ∉ vt_fileList (curVersions m) -> p ∉ vt_fileList (lastVersions m) ->
       d !! p = None) /\
    (forall p, p ∈ vt_fileList (curVersions m) \/ p ∈ vt_fileList (lastVersions m) ->
       is_Some (d !! p)).
Proof.
  intros Halg Hc Hl.
  destruct (compare_lookup fs m Halg) as (d & Hcmp & Hd).
  { intros p _ Hp. destruct Hl as [Hl|Hnil]; [by apply overlap_entry_ok|].
    rewrite Hnil in Hp. by apply not_elem_of_nil in Hp. }
  exists d. split; [done|]. repeat split.
  - intros p H1 H2. rewrite Hd. by do 2 case_decide.
  - intros p H1 H2. rewrite Hd. by do 2 case_decide.
  - intros p H1 H2 Hnone. rewrite Hd. do 2 (case_decide; [|done]).
    destruct Hl as [[lfvs Hl']|Hnil]; [|rewrite Hnil in H2; by apply not_elem_of_nil in H2].
    unfold entry_or, overlap_entry. rewrite Hl'.
    destruct (lfvs !! p); [|done].
    destruct (vt_fileVersions (curVersions m)) as [cfvs|]; [|done].
    simpl in Hnone. by rewrite Hnone.
  - intros p H1 H2. rewrite Hd. by do 2 case_decide.
  - intros p Hp. rewrite Hd.
    destruct (decide (p ∈ vt_fileList (curVersions m))), (decide (p ∈ vt_fileList (lastVersions m)));
      try by eexists.
    by destruct Hp.
Qed.

(** C8: when the two tables have different [hashAlgorithm]s, [compare()]
    raises and leaves the manager, and so [diffs], unchanged. *)
Theorem compare_algorithm_mismatch fs m :
  vt_hashAlgorithm (curVersions m) <> vt_hashAlgorithm (lastVersions m) ->
  compare fs m =
    (Some (RuntimeError "read() and build() hash algorithms differ."), m).
Proof.
  intros Hne. unfold compare. cbn [forallb py_truthy_table negb andb].
  destruct (String.eqb_spec (vt_hashAlgorithm (curVersions m))
              (vt_hashAlgorithm (lastVersions m))); [done|reflexivity].
Qed.

(** ** Facts that depend on the hash backend *)

Section Proofs.

Variable backend : string -> string -> string.

(** ** [FileVersion.build] and [VersionTable.build] in closed form *)

Lemma build_lines_eq g lines k fh lh cb :
  build_lines backend g lines k fh lh cb =
  (mkHasher (hs_backend fh) (soFar fh ++ lines),
   lineHash_fold backend g lines k lh,
   mkHasher (hs_backend cb) (soFar cb ++ lines)).
Proof.
  revert k fh lh cb.
  induction lines as [|line rest IH]; intros k fh lh cb; simpl.
  - destruct fh, cb; simpl; by rewrite !app_nil_r.
  - rewrite IH; simpl. by rewrite <-!app_assoc.
Qed.

Lemma FileVersion_build_init g p a lines cb :
  FileVersion_build backend g (FileVersion_init p a) lines cb =
  (built_fv backend g a p lines, mkHasher (hs_backend cb) (soFar cb ++ lines)).
Proof. unfold FileVersion_build. by rewrite build_lines_eq. Qed.

Lemma build_files_hasher g fs a paths fvs cb :
  (build_files backend g fs a paths fvs cb).2 =
  mkHasher (hs_backend cb) (soFar cb ++ table_lines fs paths).
Proof.
  revert fvs cb. unfold table_lines.
  induction paths as [|p ps IH]; intros fvs cb; simpl.
  - destruct cb; simpl; by rewrite app_nil_r.
  - destruct (fs !! p) as [lines|] eqn:Hp; simpl.
    + rewrite FileVersion_build_init, IH; simpl. by rewrite app_assoc.
    + apply IH.
Qed.

Lemma build_files_lookup g fs a paths fvs cb q :
  (build_files backend g fs a paths fvs cb).1 !! q =
  if decide (q ∈ paths) then
    match fs !! q with
    | Some lines => Some (built_fv backend g a q lines)
    | None => fvs !! q
    end
  else fvs !! q.
Proof.
  revert fvs cb.
  induction paths as [|p ps IH]; intros fvs cb; cbn [build_files fst].
  - case_decide as Hq; [set_solver|done].
  - destruct (fs !! p) as [lines|] eqn:Hp.
    + rewrite FileVersion_build_init, IH.
      destruct (decide (q = p)) as [->|Hne].
      * rewrite Hp, lookup_insert_eq.
        case_decide; case_decide; set_solver.
      * rewrite lookup_insert_ne by congruence.
        case_decide as H1; case_decide as H2; try done; set_solver.
    + rewrite IH.
      destruct (decide (q = p)) as [->|Hne].
      * rewrite Hp. case_decide; case_decide; done.
      * case_decide as H1; case_decide as H2; try done; set_solver.
Qed.

(** ** The digest to line-number map *)

Lemma lineHash_fold_lookup g lines k lh d n :
  lineHash_fold backend g lines k lh !! d = Some n <->
  (exists i line, n = k + i /\ lines !! i = Some line /\
     HashObject_hash backend g line = d /\
     forall j line', i < j -> lines !! j = Some line' ->
       HashObject_hash backend g line' <> d) \/
  (lh !! d = Some n /\ forall line, line ∈ lines -> HashObject_hash backend g line <> d).
Proof.
  revert k lh.
  induction lines as [|x rest IH]; intros k lh; simpl.
  - split.
    + intros H. right. split; [done|]. intros line Hin. by apply not_elem_of_nil in Hin.
    + intros [(i & line & _ & Hi & _)|[H _]]; [done|exact H].
  - rewrite IH.
    destruct (decide (HashObject_hash backend g x = d)) as [Hx|Hx].
    + subst d. rewrite lookup_insert_eq. split.
      * intros [(i & line & -> & Hi & Hl & Hlater)|[Hn Hnone]].
        -- left. exists (S i), line. split; [lia|]. split; [done|]. split; [done|].
           intros [|j] line' Hj Hj'; [lia|]. apply (Hlater j line'); [lia|done].
        -- left. injection Hn as <-. exists 0, x. split; [lia|]. split; [done|].
           split; [done|]. intros [|j] line' Hj Hj'; [lia|].
           apply Hnone. simpl in Hj'. by eapply list_elem_of_lookup_2.
      * intros [(i & line & -> & Hi & Hl & Hlater)|[_ Hnone]].
        -- destruct i as [|i].
           ++ right. simpl in Hi. injection Hi as <-. split; [f_equal; lia|].
              intros line' Hin Heq. apply list_elem_of_lookup_1 in Hin as [j Hj].
              apply (Hlater (S j) line'); [lia|done|done].
           ++ left. exists i, line. split; [lia|]. split; [done|]. split; [done|].
              intros j line' Hj Hj'. apply (Hlater (S j) line'); [lia|done].
        -- exfalso. apply (Hnone x); [set_solver|done].
    + rewrite lookup_insert_ne by done. split.
      * intros [(i & line & -> & Hi & Hl & Hlater)|[Hn Hnone]].
        -- left. exists (S i), line. split; [lia|]. split; [done|]. split; [done|].
           intros [|j] line' Hj Hj'; [lia|]. apply (Hlater j line'); [lia|done].
        -- right. split; [done|]. intros line Hin.
           apply elem_of_cons in Hin as [->|Hin]; [done|by apply Hnone].
      * intros [(i & line & -> & Hi & Hl & Hlater)|[Hn Hnone]].
        -- destruct i as [|i].
           ++ simpl in Hi. injection Hi as <-. done.
           ++ left. exists i, line. split; [lia|]. split; [done|]. split; [done|].
              intros j line' Hj Hj'. apply (Hlater (S j) line'); [lia|done].
        -- right. split; [done|]. intros line Hin. apply Hnone. set_solver.
Qed.

Lemma lineHash_fold_is_Some g lines k lh d :
  is_Some (lineHash_fold backend g lines k lh !! d) <->
  (exists line, line ∈ lines /\ HashObject_hash backend g line = d) \/ is_Some (lh !! d).
Proof.
  revert k lh.
  induction lines as [|x rest IH]; intros k lh; simpl.
  - split; [by right|]. intros [(line & Hin & _)|H]; [set_solver|done].
  - rewrite IH. destruct (decide (HashObject_hash backend g x = d)) as [<-|Hx].
    + rewrite lookup_insert_eq. split; [|by right]. intros _. left. exists x. set_solver.
    + rewrite lookup_insert_ne by done. split.
      * intros [(line & Hin & Hl)|H]; [left; exists line; set_solver|by right].
      * intros [(line & Hin & Hl)|H]; [|by right]. left. exists line.
        apply elem_of_cons in Hin as [->|Hin]; [done|done].
Qed.

(** ** Tables *)

Lemma VersionTable_build_fileVersions g fs t :
  vt_fileVersions (VersionTable_build backend g fs t) =
  Some (build_files backend g fs (vt_hashAlgorithm t) (vt_fileList t) ∅
          (HashObject_new g)).1.
Proof. unfold VersionTable_build. by destruct (build_files _ _ _ _ _ _ _). Qed.

Lemma VersionTable_build_lookup g fs t q :
  vt_fileVersions (VersionTable_build backend g fs t) ≫= (fun fvs => fvs !! q) =
  if decide (q ∈ vt_fileList t)
  then built_fv backend g (vt_hashAlgorithm t) q <$> fs !! q
  else None.
Proof.
  rewrite VersionTable_build_fileVersions. simpl.
  rewrite build_files_lookup, lookup_empty.
  case_decide; [|done]. by destruct (fs !! q).
Qed.

Lemma VersionTable_build_version g fs t :
  vt_version (VersionTable_build backend g fs t) =
  Some (backend (ho_backend g) (String.concat "" (table_lines fs (vt_fileList t)))).
Proof.
  unfold VersionTable_build.
  pose proof (build_files_hasher g fs (vt_hashAlgorithm t) (vt_fileList t) ∅
                (HashObject_new g)) as H.
  destruct (build_files _ _ _ _ _ _ _) as [fvs h]. simpl in *. by subst h.
Qed.

Lemma VersionTable_build_fields g fs t :
  vt_fileList (VersionTable_build backend g fs t) = vt_fileList t /\
  vt_hashAlgorithm (VersionTable_build backend g fs t) = vt_hashAlgorithm t.
Proof. unfold VersionTable_build. by destruct (build_files _ _ _ _ _ _ _). Qed.

(** ** Helper facts for the claims *)

Lemma lineHash_fold_perm g (l1 l2 : list string) k :
  l1 ≡ₚ l2 ->
  is_Some (lineHash_fold backend g l1 1 ∅ !! k) ->
  is_Some (lineHash_fold backend g l2 1 ∅ !! k).
Proof.
  intros Hp. rewrite !lineHash_fold_is_Some, lookup_empty.
  intros [(line & Hin & Hh)|[? ?]]; [|done].
  left. exists line. split; [by rewrite <-Hp|done].
Qed.

Lemma normalize_build g fs t :
  VersionTable_normalize (VersionTable_build backend g fs t) =
  inr (mkVRecord (vt_version (VersionTable_build backend g fs t)) (vt_hashAlgorithm t)
         (vt_fileList t)
         (FileVersion_normalize <$>
            (build_files backend g fs (vt_hashAlgorithm t) (vt_fileList t) ∅
               (HashObject_new g)).1)).
Proof. unfold VersionTable_normalize, VersionTable_build. by destruct (build_files _ _ _ _ _ _ _). Qed.

Lemma build_files_alg g fs a paths cb p fv :
  (build_files backend g fs a paths ∅ cb).1 !! p = Some fv -> fv_hashAlgorithm fv = a.
Proof.
  rewrite build_files_lookup, lookup_empty.
  case_decide; [|done]. destruct (fs !! p); [|done]. by intros [= <-].
Qed.

(** ** Claims *)

(** C3 (as amended): every digest of a built table, composite, per file
    and per line, is computed with the hash object [g] that is the
    process-wide [_HASHOBJ] when [build()] runs, whatever the table's
    [hashAlgorithm]: the composite version always (also when no tracked file
    exists, where it is the digest of the empty text), and the digests of
    every file version the table holds. *)
Theorem built_digests_use_current_hashobj g fs t :
  vt_version (VersionTable_build backend g fs t) =
    Some (backend (ho_backend g) (String.concat "" (table_lines fs (vt_fileList t)))) /\
  forall p fv,
    vt_fileVersions (VersionTable_build backend g fs t) ≫= (fun fvs => fvs !! p) = Some fv ->
    exists lines, fs !! p = Some lines /\
      fv_version fv = Some (backend (ho_backend g) (String.concat "" lines)) /\
      forall d n, fv_lineHash fv !! d = Some n ->
        exists line, lines !! (n - 1) = Some line /\ d = backend (ho_backend g) line.
Proof.
  split; [apply VersionTable_build_version|].
  intros p fv Hfv. rewrite VersionTable_build_lookup in Hfv.
  case_decide; [|done].
  destruct (fs !! p) as [lines|] eqn:Hp; simpl in Hfv; [|done].
  injection Hfv as <-. exists lines. split; [done|]. split; [done|].
  intros d n Hd. simpl in Hd.
  apply lineHash_fold_lookup in Hd as [(i & line & -> & Hi & Hh & _)|[Hn _]].
  - exists line. split; [by replace (1 + i - 1) with i by lia|done].
  - by rewrite lookup_empty in Hn.
Qed.

(** C6: for a table [T] produced by [build()], reading back the record of
    [normalize()] gives the same [fileList], [hashAlgorithm] and [version],
    and the same [FileVersion] for every path that exists when the record
    is read. *)
Theorem normalize_read_roundtrip g fs t fs' tl :
  exists rec,
    VersionTable_normalize (VersionTable_build backend g fs t) = inr rec /\
    vt_fileList (VersionTable_read fs' rec tl) = vt_fileList (VersionTable_build backend g fs t) /\
    vt_hashAlgorithm (VersionTable_read fs' rec tl) =
      vt_hashAlgorithm (VersionTable_build backend g fs t) /\
    vt_version (VersionTable_read fs' rec tl) = vt_version (VersionTable_build backend g fs t) /\
    forall p, os_path_exists fs' p = true ->
      vt_fileVersions (VersionTable_read fs' rec tl) ≫= (fun fvs => fvs !! p) =
      vt_fileVersions (VersionTable_build backend g fs t) ≫= (fun fvs => fvs !! p).
Proof.
  destruct (VersionTable_build_fields g fs t) as [Hlist Halg].
  eexists. split; [apply normalize_build|].
  rewrite Hlist, Halg. split; [done|]. split; [done|]. split; [done|].
  intros p Hp. rewrite read_lookup, Hp. cbn [r_files r_hashAlgorithm].
  rewrite lookup_fmap, VersionTable_build_fileVersions. simpl.
  destruct (_ !! p) as [fv|] eqn:Hfv; simpl; [|done].
  f_equal. apply FileVersion_of_norm_normalize. by eapply build_files_alg.
Qed.

(** C7: when the content of a file is a permutation of its lines at the
    previous run, [compare()] reports no added and no removed line for it
    (the lines need not have distinct digests). The previous table was built
    on [fs_prev] and persisted; the current one is built on [fs], with the
    same hash object. *)
Theorem compare_permuted_lines_unchanged g fs_prev fs t_prev tc tl m rec p l1 l2 :
  VersionTable_normalize (VersionTable_build backend g fs_prev t_prev) = inr rec ->
  lastVersions m = VersionTable_read fs rec tl ->
  curVersions m = VersionTable_build backend g fs tc ->
  vt_hashAlgorithm tc = vt_hashAlgorithm t_prev ->
  p ∈ vt_fileList t_prev -> p ∈ vt_fileList tc ->
  fs_prev !! p = Some l1 -> fs !! p = Some l2 -> l1 ≡ₚ l2 ->
  exists d, compare fs m = (None, set_diffs m d) /\
    d !! p = Some (mkDiffFile false false [] []).
Proof.
  intros Hrec Hlast Hcur Halg Hp1 Hp2 Hl1 Hl2 Hperm.
  rewrite normalize_build in Hrec. injection Hrec as <-.
  destruct (VersionTable_build_fields g fs tc) as [Hlist Halg'].
  destruct (compare_lookup fs m) as (d & Hcmp & Hd).
  { by rewrite Hcur, Hlast, Halg'. }
  { intros q _ _. apply overlap_entry_ok.
    - rewrite Hcur, VersionTable_build_fileVersions. by eexists.
    - rewrite Hlast. by eexists. }
  exists d. split; [done|]. rewrite Hd.
  rewrite Hcur, Hlist. case_decide; [|done].
  rewrite Hlast. cbn [vt_fileList VersionTable_read r_fileList]. case_decide; [|done].
  unfold entry_or, overlap_entry.
  assert (os_path_exists fs p = true) as Hex.
  { unfold os_path_exists. rewrite Hl2. by apply bool_decide_eq_true. }
  rewrite Hlast, Hcur, VersionTable_build_fileVersions.
  cbn [VersionTable_read vt_fileVersions r_files r_hashAlgorithm].
  rewrite map_lookup_filter, !lookup_fmap, !build_files_lookup, !lookup_empty, Hl1, Hl2.
  rewrite !decide_True by done. cbn [fmap option_fmap option_map mbind option_bind].
  rewrite option_guard_True by exact Hex.
  rewrite FileVersion_of_norm_normalize by done. cbn [fv_lineHash].
  rewrite !keys_minus_nil; [done| |].
  - intros k. apply lineHash_fold_perm. done.
  - intros k. apply lineHash_fold_perm. by symmetry.
Qed.

(** C9: after [build()], the digest to line-number map has an entry [d |-> n]
    exactly when line [n] (1-based) is the last line of the file whose
    digest is [d]: of lines with equal digests the last one wins. *)
Theorem lineHash_last_occurrence_wins g p a lines cb d n :
  fv_lineHash (FileVersion_build backend g (FileVersion_init p a) lines cb).1 !! d = Some n <->
  exists i line, n = S i /\ lines !! i = Some line /\
    HashObject_hash backend g line = d /\
    forall j line', i < j -> lines !! j = Some line' -> HashObject_hash backend g line' <> d.
Proof.
  rewrite FileVersion_build_init. cbn [fst built_fv fv_lineHash].
  rewrite lineHash_fold_lookup, lookup_empty. split.
  - intros [(i & line & -> & H)|[? _]]; [|done]. by exists i, line.
  - intros (i & line & -> & H). left. by exists i, line.
Qed.

(** C10: building from a permutation of the path list gives the same table:
    [VersionTable.__init__] sorts the list, so [fileList], [fileVersions]
    and [version] do not depend on the order of the input list. *)
Theorem table_independent_of_list_order g fs (fileList1 fileList2 : list string) a :
  fileList1 ≡ₚ fileList2 ->
  VersionTable_init fileList1 a = VersionTable_init fileList2 a /\
  VersionTable_build backend g fs (VersionTable_init fileList1 a) =
  VersionTable_build backend g fs (VersionTable_init fileList2 a).
Proof.
  intros Hperm.
  assert (sorted fileList1 = sorted fileList2) as Hs.
  { unfold sorted. apply (Sorted_unique stdpp.strings.String.le).
    - apply Sorted_merge_sort; apply _.
    - apply Sorted_merge_sort; apply _.
    - by rewrite !merge_sort_Permutation. }
  unfold VersionTable_init. by rewrite Hs.
Qed.

End Proofs.

(** ** Behaviour on concrete runs *)

Lemma overlap_loop_error m ps d e d' :
  overlap_loop m ps d = (Some e, d') -> e = TypeError.
Proof.
  revert d. induction ps as [|p ps IH]; intros d; cbn [overlap_loop]; [done|].
  unfold overlap_entry.
  destruct (vt_fileVersions (lastVersions m)) as [lfvs|]; [|by intros [= <- _]].
  destruct (lfvs !! p); [|apply IH].
  destruct (vt_fileVersions (curVersions m)) as [cfvs|]; [|by intros [= <- _]].
  destruct (cfvs !! p); apply IH.
Qed.

(** [compare()] never raises its "Must call read() and build()" error: the
    guard tests the truth value of two [VersionTable] instances. *)
Lemma compare_never_raises_precondition fs m :
  fst (compare fs m) <> Some (RuntimeError "Must call read() and build() to compare versions.").
Proof.
  unfold compare. cbn [forallb py_truthy_table negb andb].
  destruct (String.eqb _ _); cbn [negb].
  - destruct (overlap_loop _ _ _) as [[e|] d] eqn:E; simpl; [|done].
    apply overlap_loop_error in E as ->. discriminate.
  - discriminate.
Qed.

(** Duplicated lines: the digest of "x\n" keeps the line number of its last
    occurrence. *)
Example lineHash_duplicate_line :
  fv_lineHash (FileVersion_build md5_sample md5_obj (FileVersion_init "f" "md5")
                 ["x" ++ nl; "y" ++ nl; "x" ++ nl]%string (mkHasher "md5" [])).1
    !! md5_sample "md5" ("x" ++ nl)%string = Some 3.
Proof. vm_compute. reflexivity. Qed.

(** The scenario of the spec's section 8: [a.txt] goes from "x\ny\n" to
    "x\nz\n". *)
Example compare_spec_scenario :
  diff_of (second_run md5_sample md5_obj fs_a_xy
             {[ "a.txt"%string := ["x" ++ nl; "z" ++ nl]%string ]} fresh_manager) "a.txt"
  = Some (mkDiffFile false false [2] [2]).
Proof. vm_compute. reflexivity. Qed.

(** C1: the line numbers are listed in the order of their digests, not in
    ascending order. With MD5, md5("b\n") = 3b5d... < md5("a\n") = 60b7..., so
    when an empty [a.txt] becomes "a\nb\n" the added lines are [2; 1]. *)
Theorem compare_line_numbers_in_digest_order :
  VersionManager_init example_env "rev" ["a.txt"%string] "md5" false = inr (md5_obj, fresh_manager) /\
  fst (second_run md5_sample md5_obj fs_a_empty fs_a_ab fresh_manager) = None /\
  diff_of (second_run md5_sample md5_obj fs_a_empty fs_a_ab fresh_manager) "a.txt"
  = Some (mkDiffFile false false [2; 1] []).
Proof. split; [|split]; vm_compute; reflexivity. Qed.

(** C2: a manager on which neither [read()] nor [build()] was called
    compares without raising and fills [diffs]. *)
Theorem compare_before_read_and_build_succeeds :
  VersionManager_init example_env "rev" ["a.txt"%string] "md5" false = inr (md5_obj, fresh_manager) /\
  compare fs_a_ab fresh_manager =
    (None, set_diffs fresh_manager {[ "a.txt"%string := mkDiffFile false true [] [] ]}).
Proof. split; vm_compute; reflexivity. Qed.

(** C3, counterexample: a manager for MD5 is constructed, then one for SHA-1;
    building the first manager's table computes its digests with SHA-1 while
    the table says MD5. *)
Lemma build_uses_hashobj_of_latest_manager :
  VersionManager_init example_env "rev" ["a.txt"%string] "md5" false = inr (md5_obj, fresh_manager) /\
  VersionManager_init example_env "rev" ["a.txt"%string] "sha1" false = inr (sha1_obj, sha1_manager) /\
  vt_hashAlgorithm (curVersions (VersionManager_build md5_sample sha1_obj fs_a_ab fresh_manager))
    = "md5"%string /\
  vt_version (curVersions (VersionManager_build md5_sample sha1_obj fs_a_ab fresh_manager))
    = Some (md5_sample "sha1" ("a" ++ nl ++ "b" ++ nl)) /\
  vt_version (curVersions (VersionManager_build md5_sample sha1_obj fs_a_ab fresh_manager))
    <> Some (md5_sample "md5" ("a" ++ nl ++ "b" ++ nl)).
Proof.
  split; [vm_compute; reflexivity|].
  split; [vm_compute; reflexivity|].
  split; [vm_compute; reflexivity|].
  split; [vm_compute; reflexivity|].
  vm_compute. discriminate.
Qed.

(** C4: when [a.txt] loses its last line, [compare()] reports one removed
    line and no added line, and [versionReport] still calls the file
    unchanged: it tests [modifiedLines] twice and never [missingLines]. *)
Theorem report_unchanged_with_removed_line :
  diff_of (second_run md5_sample md5_obj fs_a_xy fs_a_x fresh_manager) "a.txt"
    = Some (mkDiffFile false false [] [2]) /\
  versionReport_label true (mkDiffFile false false [] [2]) = Some "[unchanged]"%string.
Proof. split; vm_compute; reflexivity. Qed.

(** ** Witnesses *)

(** Settle a decidable proposition on concrete data by evaluation. *)
Ltac by_decide :=
  match goal with |- ?P => apply (@bool_decide_unpack P _); vm_compute; exact I end.

Lemma built_digests_use_current_hashobj_witness :
  vt_version (VersionTable_build md5_sample sha1_obj ∅ (curVersions fresh_manager)) =
  Some (md5_sample "sha1" "").
Proof.
  exact (proj1 (built_digests_use_current_hashobj md5_sample sha1_obj ∅
                  (curVersions fresh_manager))).
Defined.

Lemma compare_classification_witness :
  exists d, compare fs_ac classify_manager = (None, set_diffs classify_manager d) /\
    is_Some (d !! "a.txt"%string) /\
    d !! "b.txt"%string = Some (mkDiffFile true false [] []) /\
    d !! "c.txt"%string = Some (mkDiffFile false true [] []) /\
    d !! "d.txt"%string = Some (mkDiffFile true true [] []) /\
    d !! "e.txt"%string = None.
Proof.
  destruct (compare_classification fs_ac classify_manager)
    as (d & H & Hnew & Hrem & Hboth & Hnone & Hall).
  - vm_compute. reflexivity.
  - vm_compute. eexists. reflexivity.
  - left. vm_compute. eexists. reflexivity.
  - exists d. split; [exact H|]. split; [|split; [|split; [|split]]].
    + apply Hall. left. by_decide.
    + apply Hrem; by_decide.
    + apply Hnew; by_decide.
    + apply Hboth; [by_decide..|].
      vm_compute. reflexivity.
    + apply Hnone; by_decide.
Defined.

Lemma normalize_read_roundtrip_witness :
  exists rec,
    VersionTable_normalize
      (VersionTable_build md5_sample md5_obj fs_a_ab (curVersions fresh_manager)) = inr rec /\
    vt_fileVersions (VersionTable_read fs_a_ab rec (lastVersions fresh_manager))
      ≫= (fun fvs => fvs !! "a.txt"%string) =
    vt_fileVersions (VersionTable_build md5_sample md5_obj fs_a_ab (curVersions fresh_manager))
      ≫= (fun fvs => fvs !! "a.txt"%string).
Proof.
  destruct (normalize_read_roundtrip md5_sample md5_obj fs_a_ab (curVersions fresh_manager)
              fs_a_ab (lastVersions fresh_manager)) as (rec & Hn & _ & _ & _ & Hp).
  exists rec. split; [exact Hn|]. apply Hp. vm_compute. reflexivity.
Defined.

Lemma compare_permuted_lines_unchanged_witness :
  exists d, compare fs_a_ba (run_manager fs_a_ab fs_a_ba) =
              (None, set_diffs (run_manager fs_a_ab fs_a_ba) d) /\
            d !! "a.txt"%string = Some (mkDiffFile false false [] []).
Proof.
  destruct (VersionTable_normalize
              (VersionTable_build md5_sample md5_obj fs_a_ab (curVersions fresh_manager)))
    as [e|rec] eqn:E.
  - vm_compute in E. discriminate.
  - apply (compare_permuted_lines_unchanged md5_sample md5_obj fs_a_ab fs_a_ba
             (curVersions fresh_manager) (curVersions fresh_manager)
             (lastVersions fresh_manager) (run_manager fs_a_ab fs_a_ba) rec "a.txt"
             ["a" ++ nl; "b" ++ nl]%string ["b" ++ nl; "a" ++ nl]%string E).
    + unfold run_manager, persisted, VersionManager_build, VersionManager_read.
      rewrite E. reflexivity.
    + reflexivity.
    + reflexivity.
    + vm_compute. left.
    + vm_compute. left.
    + vm_compute. reflexivity.
    + vm_compute. reflexivity.
    + apply perm_swap.
Defined.

Lemma compare_algorithm_mismatch_witness :
  compare fs_a_ab mismatch_manager =
    (Some (RuntimeError "read() and build() hash algorithms differ."), mismatch_manager).
Proof. apply compare_algorithm_mismatch. vm_compute. discriminate. Defined.

Lemma table_independent_of_list_order_witness :
  VersionTable_init ["b.txt"; "a.txt"]%string "md5" =
  VersionTable_init ["a.txt"; "b.txt"]%string "md5".
Proof.
  apply (table_independent_of_list_order md5_sample md5_obj fs_a_ab
           ["b.txt"; "a.txt"]%string ["a.txt"; "b.txt"]%string "md5").
  apply perm_swap.
Defined.

(** ** Sessions: [__enter__], [__exit__], [write] and the reports *)

Lemma compare_fields fs m :
  let m' := (compare fs m).2 in
  revisionFileName m' = revisionFileName m /\ curVersions m' = curVersions m /\
  lastVersions m' = lastVersions m /\ doWrite m' = doWrite m.
Proof.
  unfold compare. cbn [forallb py_truthy_table negb andb].
  destruct (negb _); [done|]. destruct (overlap_loop _ _ _). done.
Qed.

Section Sessions.

Variable backend : string -> string -> string.

Lemma persisted_build g fs m :
  persisted backend g fs m =
  Some (mkVRecord (vt_version (VersionTable_build backend g fs (curVersions m)))
          (vt_hashAlgorithm (curVersions m)) (vt_fileList (curVersions m))
          (FileVersion_normalize <$>
             (build_files backend g fs (vt_hashAlgorithm (curVersions m))
                (vt_fileList (curVersions m)) ∅ (HashObject_new g)).1)).
Proof. unfold persisted. by rewrite normalize_build. Qed.

Lemma enter_persisted_lookup g fs_prev fs m :
  let M := VersionManager_build backend g fs
             (VersionManager_read fs (persisted backend g fs_prev m) m) in
  exists d,
    VersionManager_enter backend g fs (persisted backend g fs_prev m) m = (None, set_diffs M d) /\
    forall p, d !! p =
      if decide (p ∈ vt_fileList (curVersions m)) then
        Some (match fs_prev !! p, fs !! p with
              | Some l1, Some l2 => line_diff backend g l1 l2
              | _, _ => missing_new
              end)
      else None.
Proof.
  intros M.
  assert (curVersions M = VersionTable_build backend g fs (curVersions m)) as Hcur
    by (unfold M; rewrite persisted_build; reflexivity).

  assert (lastVersions M = VersionTable_read fs
            (mkVRecord (vt_version (VersionTable_build backend g fs_prev (curVersions m)))
               (vt_hashAlgorithm (curVersions m)) (vt_fileList (curVersions m))
               (FileVersion_normalize <$>
                  (build_files backend g fs_prev (vt_hashAlgorithm (curVersions m))
                     (vt_fileList (curVersions m)) ∅ (HashObject_new g)).1))
            (lastVersions m)) as Hlast.
  { unfold M. rewrite persisted_build. reflexivity. }
  destruct (VersionTable_build_fields backend g fs (curVersions m)) as [Hlist Halg].
  destruct (compare_lookup fs M) as (d & Hc & Hd).
  { by rewrite Hcur, Hlast, Halg. }
  { intros q _ _. apply overlap_entry_ok.
    - rewrite Hcur, VersionTable_build_fileVersions. by eexists.
    - rewrite Hlast. by eexists. }
  exists d. split; [exact Hc|]. intros p. rewrite Hd, Hcur, Hlast, Hlist.
  cbn [vt_fileList VersionTable_read r_fileList].
  destruct (decide (p ∈ vt_fileList (curVersions m))) as [Hp|Hp]; [|done]. f_equal.
  unfold entry_or, overlap_entry.
  rewrite Hlast, Hcur, VersionTable_build_fileVersions.
  cbn [VersionTable_read vt_fileVersions r_files r_hashAlgorithm].
  rewrite map_lookup_filter, !lookup_fmap, !build_files_lookup, !lookup_empty.
  rewrite !decide_True by done.
  destruct (fs_prev !! p) as [l1|] eqn:H1; [|done].
  cbn [fmap option_fmap option_map mbind option_bind].
  rewrite option_guard_decide. unfold os_path_exists.
  destruct (fs !! p) as [l2|] eqn:H2; [|by case_decide].
  rewrite decide_True by (apply bool_decide_eq_true; by eexists).
  rewrite FileVersion_of_norm_normalize by done. reflexivity.
Qed.

Lemma keys_minus_elem (a b : gmap string nat) h :
  h ∈ keys_minus a b <-> is_Some (a !! h) /\ b !! h = None.
Proof.
  unfold keys_minus. rewrite list_elem_of_filter. split.
  - intros [Hb Hk]. apply list_elem_of_fmap in Hk as [[k v] [-> Hkv]].
    apply elem_of_map_to_list in Hkv. split; [by eexists|done].
  - intros [[v Hv] Hb]. split; [done|]. apply list_elem_of_fmap.
    exists (h, v). split; [done|]. by apply elem_of_map_to_list.
Qed.

Lemma elem_of_sorted (l : list string) x : x ∈ sorted l <-> x ∈ l.
Proof. unfold sorted. by rewrite merge_sort_Permutation. Qed.

Lemma line_diff_modified g l1 l2 n :
  n ∈ modifiedLines (line_diff backend g l1 l2) <->
  exists i line, n = S i /\ l2 !! i = Some line /\
    (forall line', line' ∈ l1 -> HashObject_hash backend g line' <> HashObject_hash backend g line) /\
    (forall j line', i < j -> l2 !! j = Some line' ->
       HashObject_hash backend g line' <> HashObject_hash backend g line).
Proof.
  unfold line_diff. cbn [modifiedLines]. rewrite list_elem_of_omap. split.
  - intros (h & Hh & Hn). rewrite elem_of_sorted, keys_minus_elem in Hh.
    destruct Hh as [_ Hnone].
    apply lineHash_fold_lookup in Hn as [(i & line & -> & Hi & Hl & Hlater)|[Hn _]];
      [|by rewrite lookup_empty in Hn].
    exists i, line. split; [done|]. split; [done|]. subst h. split; [|done].
    intros line' Hin Heq. apply (is_Some_None (A:=nat)). rewrite <-Hnone.
    apply lineHash_fold_is_Some. left. by exists line'.
  - intros (i & line & -> & Hi & Hnot & Hlater).
    exists (HashObject_hash backend g line).
    assert (lineHash_fold backend g l2 1 ∅ !! HashObject_hash backend g line = Some (S i)) as Hs.
    { apply lineHash_fold_lookup. left. by exists i, line. }
    split; [|done]. rewrite elem_of_sorted, keys_minus_elem. split; [by eexists|].
    destruct (lineHash_fold backend g l1 1 ∅ !! _) eqn:E; [|done]. exfalso.
    assert (is_Some (lineHash_fold backend g l1 1 ∅ !! HashObject_hash backend g line)) as Hc
      by (rewrite E; by eexists).
    apply lineHash_fold_is_Some in Hc as [(line' & Hin & Heq)|Hc];
      [by apply (Hnot line')|by rewrite lookup_empty in Hc].
Qed.

Lemma lineHash_fold_backend g1 g2 lines k lh :
  ho_backend g1 = ho_backend g2 ->
  lineHash_fold backend g1 lines k lh = lineHash_fold backend g2 lines k lh.
Proof.
  intros Hb. revert k lh. induction lines as [|x rest IH]; intros k lh; [done|].
  cbn [lineHash_fold]. unfold HashObject_hash. rewrite Hb. apply IH.
Qed.

Lemma VersionManager_init_inv env rev fl alg w g m :
  VersionManager_init env rev fl alg w = inr (g, m) ->
  HashObject_init env alg = inr g /\
  m = mkVersionManager rev (VersionTable_init fl alg) (VersionTable_init [] alg) w None.
Proof.
  unfold VersionManager_init. destruct (HashObject_init env alg); [done|]. by intros [= -> <-].
Qed.

Lemma py_in_ALGORITHMS env alg :
  py_in alg (ALGORITHMS env) =
  py_in alg PYHASH_ALGORITHMS || py_in alg XXHASH_ALGORITHMS ||
  py_in alg (HASHLIB_ALGORITHMS env) || String.eqb alg "mmh3".
Proof.
  unfold ALGORITHMS, py_in. rewrite !existsb_app. cbn [existsb].
  by rewrite orb_false_r, !orb_assoc.
Qed.

Lemma HashObject_init_algorithm env alg g :
  HashObject_init env alg = inr g -> ho_algorithm g = alg.
Proof.
  unfold HashObject_init.
  repeat match goal with
         | |- context [if ?b then _ else _] => destruct b
         end; by intros [= <-].
Qed.

Lemma xxh_not_constructor alg :
  py_in alg XXHASH_ALGORITHMS = true -> py_in alg HASHLIB_CONSTRUCTORS = false.
Proof.
  unfold XXHASH_ALGORITHMS, py_in. cbn [existsb]. intros Hx.
  destruct (String.eqb_spec alg "xxh32") as [E|]; [rewrite E; reflexivity|].
  destruct (String.eqb_spec alg "xxh64") as [E|]; [rewrite E; reflexivity|discriminate].
Qed.

(** The hashlib branch only succeeds for a constructor of [hashlib], and no
    xxhash name is one: a hash object for an xxhash name is served by
    [xxhash.xxh64]. *)
Lemma HashObject_init_xxh env alg g :
  HashObject_init env alg = inr g -> py_in alg XXHASH_ALGORITHMS = true ->
  ho_algorithm g = alg /\ ho_backend g = "xxh64"%string.
Proof.
  intros Hinit Hx. unfold HashObject_init in Hinit. rewrite Hx in Hinit.
  rewrite (xxh_not_constructor alg Hx) in Hinit.
  destruct (py_in alg (HASHLIB_ALGORITHMS env)); [done|].
  destruct (py_in "xxhash" (importable env)); [|done]. by injection Hinit as <-.
Qed.

Lemma enter_fields g fs revision m :
  let m' := (VersionManager_enter backend g fs revision m).2 in
  revisionFileName m' = revisionFileName m /\
  curVersions m' = VersionTable_build backend g fs (curVersions m) /\
  doWrite m' = doWrite m.
Proof.
  unfold VersionManager_enter. cbn zeta.
  destruct (compare_fields fs (VersionManager_build backend g fs (VersionManager_read fs revision m)))
    as (H1 & H2 & _ & H4).
  rewrite H1, H2, H4. by destruct revision.
Qed.

(** Registry: [VersionManager(...)] succeeds only for a name of
    [ALGORITHMS]; it then keeps the name and a hash object whose backend is
    the name itself, except that both xxhash names are served by xxh64, and
    a name of [algorithms_available] succeeds only if [hashlib] has a
    constructor of that name. For a name of [ALGORITHMS] it fails only by
    the eval of [hashlib.name] (a name of [algorithms_available] with no
    constructor) or, for the other names, by an import or the eval of a
    [pyhash] hasher; any other name raises [RuntimeError] whose message
    holds the [repr] of the name. *)
Theorem VersionManager_init_registry env rev fl alg w :
  match VersionManager_init env rev fl alg w with
  | inr (g, m) =>
      py_in alg (ALGORITHMS env) = true /\ ho_algorithm g = alg /\
      ho_backend g = (if py_in alg XXHASH_ALGORITHMS then "xxh64"%string else alg) /\
      (py_in alg (HASHLIB_ALGORITHMS env) = true -> py_in alg HASHLIB_CONSTRUCTORS = true) /\
      m = mkVersionManager rev (VersionTable_init fl alg) (VersionTable_init [] alg) w None
  | inl e =>
      if py_in alg (ALGORITHMS env) then
        (py_in alg (HASHLIB_ALGORITHMS env) = true ->
           py_in alg HASHLIB_CONSTRUCTORS = false /\ e = EvalError ("hashlib." ++ alg)) /\
        (py_in alg (HASHLIB_ALGORITHMS env) = false ->
           (exists md, e = ImportError md) \/ (exists ex, e = EvalError ex))
      else e = RuntimeError ("Could not find hash algorithm " ++ py_repr alg)
  end.
Proof.
  unfold VersionManager_init. rewrite py_in_ALGORITHMS.
  destruct (HashObject_init env alg) as [e|g] eqn:Hinit.
  - unfold HashObject_init in Hinit.
    destruct (py_in alg (HASHLIB_ALGORITHMS env)) eqn:Hl.
    { rewrite orb_true_r. cbn [orb].
      destruct (py_in alg HASHLIB_CONSTRUCTORS); [done|]. injection Hinit as <-.
      split; [done|]. discriminate. }
    destruct (py_in alg XXHASH_ALGORITHMS) eqn:Hx.
    { rewrite orb_true_r. cbn [orb]. split; [discriminate|].
      intros _. destruct (py_in _ (importable env)); [done|]. injection Hinit as <-.
      left. by eexists. }
    destruct (String.eqb alg "mmh3") eqn:Hm.
    { rewrite orb_true_r. cbn [orb]. split; [discriminate|].
      intros _. destruct (py_in _ (importable env)); [done|]. injection Hinit as <-.
      left. by eexists. }
    destruct (py_in alg PYHASH_ALGORITHMS) eqn:Hp.
    { cbn [orb]. split; [discriminate|]. intros _.
      destruct (py_in _ (importable env)).
      - destruct (py_in alg (pyhash_hashers env)); [done|]. injection Hinit as <-.
        right. by eexists.
      - injection Hinit as <-. left. by eexists. }
    cbn [orb]. by injection Hinit as <-.
  - split; [|split; [by apply (HashObject_init_algorithm env)|split; [|split]]].
    + unfold HashObject_init in Hinit.
      destruct (py_in alg (HASHLIB_ALGORITHMS env)); [by rewrite orb_true_r|].
      destruct (py_in alg XXHASH_ALGORITHMS); [by rewrite orb_true_r|].
      destruct (String.eqb alg "mmh3"); [by rewrite orb_true_r|].
      destruct (py_in alg PYHASH_ALGORITHMS); [done|].
      discriminate.
    + destruct (py_in alg XXHASH_ALGORITHMS) eqn:Hx.
      { by apply (HashObject_init_xxh env alg g). }
      unfold HashObject_init in Hinit. rewrite Hx in Hinit.
      destruct (py_in alg (HASHLIB_ALGORITHMS env)).
      { destruct (py_in alg HASHLIB_CONSTRUCTORS); [|done]. by injection Hinit as <-. }
      destruct (String.eqb_spec alg "mmh3") as [->|].
      { destruct (py_in _ (importable env)); [|done]. by injection Hinit as <-. }
      destruct (py_in alg PYHASH_ALGORITHMS); [|done].
      destruct (py_in _ (importable env)); [|done].
      destruct (py_in alg (pyhash_hashers env)); [|done]. by injection Hinit as <-.
    + intros Hl. unfold HashObject_init in Hinit. rewrite Hl in Hinit.
      by destruct (py_in alg HASHLIB_CONSTRUCTORS).
    + reflexivity.
Qed.

(** A manager for "xxh32" and one for "xxh64" build the same composite
    version and, for every path, the same file version and line map: both
    hash with [xxhash.xxh64]. *)
Theorem xxh32_digests_are_xxh64 env rev fl w g32 m32 g64 m64 fs p :
  VersionManager_init env rev fl "xxh32" w = inr (g32, m32) ->
  VersionManager_init env rev fl "xxh64" w = inr (g64, m64) ->
  getVersion (VersionManager_build backend g32 fs m32) =
    getVersion (VersionManager_build backend g64 fs m64) /\
  (fun fv => (fv_version fv, fv_lineHash fv)) <$>
    (vt_fileVersions (curVersions (VersionManager_build backend g32 fs m32)) ≫= (fun fvs => fvs !! p)) =
  (fun fv => (fv_version fv, fv_lineHash fv)) <$>
    (vt_fileVersions (curVersions (VersionManager_build backend g64 fs m64)) ≫= (fun fvs => fvs !! p)).
Proof.
  intros H32 H64.
  apply VersionManager_init_inv in H32 as [Hg32 ->].
  apply VersionManager_init_inv in H64 as [Hg64 ->].
  apply HashObject_init_xxh in Hg32 as [_ Hb32]; [|reflexivity].
  apply HashObject_init_xxh in Hg64 as [_ Hb64]; [|reflexivity].
  unfold getVersion, VersionManager_build. cbn [curVersions set_curVersions].
  rewrite !VersionTable_build_version, !VersionTable_build_lookup, Hb32, Hb64.
  split; [done|]. cbn [vt_fileList VersionTable_init].
  case_decide; [|done]. destruct (fs !! p); [|done]. cbn.
  rewrite Hb32, Hb64. f_equal. f_equal. apply lineHash_fold_backend. congruence.
Qed.

(** [write()] on a manager whose table has no version yet builds the table
    first; the record written has the table's path list and algorithm, the
    composite digest of the existing tracked files, and one entry per
    tracked file that exists. *)
Theorem write_builds_unbuilt_table g fs m :
  vt_version (curVersions m) = None ->
  exists r, VersionManager_write backend g fs m = inr (r, VersionManager_build backend g fs m) /\
    r_version r = Some (backend (ho_backend g)
                          (String.concat "" (table_lines fs (vt_fileList (curVersions m))))) /\
    r_hashAlgorithm r = vt_hashAlgorithm (curVersions m) /\
    r_fileList r = vt_fileList (curVersions m) /\
    forall p, r_files r !! p =
      if decide (p ∈ vt_fileList (curVersions m))
      then (fun lines => FileVersion_normalize
                           (built_fv backend g (vt_hashAlgorithm (curVersions m)) p lines))
             <$> fs !! p
      else None.
Proof.
  intros Hnone. unfold VersionManager_write. rewrite Hnone.
  unfold VersionManager_build at 1. cbn [curVersions set_curVersions].
  rewrite normalize_build. eexists. split; [reflexivity|].
  cbn [r_version r_hashAlgorithm r_fileList r_files].
  rewrite VersionTable_build_version. split; [done|]. split; [done|]. split; [done|].
  intros p. rewrite lookup_fmap, build_files_lookup, lookup_empty.
  case_decide; [|done]. by destruct (fs !! p).
Qed.

(** After [__enter__], [__exit__] writes iff the revision file name is not
    empty and [write] was requested or the revision file exists; it writes
    the table built on entry, without rebuilding, whatever the file system
    is at exit. *)
Theorem exit_writes_table_built_on_enter g fs revision m fs' revision_exists :
  exists r, persisted backend g fs m = Some r /\
    VersionManager_exit backend g fs' revision_exists
      (VersionManager_enter backend g fs revision m).2 =
    if negb (String.eqb (revisionFileName m) "") && (doWrite m || revision_exists)
    then inr (Some (r, (VersionManager_enter backend g fs revision m).2))
    else inr None.
Proof.
  destruct (enter_fields g fs revision m) as (Hn & Hc & Hw).
  eexists. split; [apply persisted_build|].
  unfold VersionManager_exit. rewrite Hn, Hw.
  destruct (negb _ && _); [|done].
  unfold VersionManager_write. rewrite Hc, !VersionTable_build_version.
  rewrite Hc, normalize_build, !VersionTable_build_version.
  reflexivity.
Qed.

(** First run: with no revision file, entering a fresh manager reports
    every tracked path as new (and missing iff it does not exist), nothing
    else, and [hasVersionChanged()] is true; [compare()] raises nothing.
    The algorithm is neither one that [HashWrapper] serves (mmh3, pyhash)
    nor an extendable-output one (shake), whose [build()] raises under
    Python 3 on a non-empty file; every tracked path that exists is a
    readable text file (the scope of [FileSystem]). *)
Theorem first_run_reports_all_new env rev fl alg w g m fs :
  VersionManager_init env rev fl alg w = inr (g, m) ->
  py_in alg WRAPPED_ALGORITHMS = false ->
  py_in alg XOF_ALGORITHMS = false ->
  fst (VersionManager_enter backend g fs None m) = None /\
  (forall p, diff_of (VersionManager_enter backend g fs None m) p =
     if decide (p ∈ fl) then Some (mkDiffFile (negb (os_path_exists fs p)) true [] [])
     else None) /\
  hasVersionChanged (VersionManager_enter backend g fs None m).2 = true.
Proof.
  intros Hinit _ _. apply VersionManager_init_inv in Hinit as [_ ->].
  unfold VersionManager_enter. cbn [VersionManager_read].
  set (M := VersionManager_build backend g fs _).
  destruct (VersionTable_build_fields backend g fs (VersionTable_init fl alg)) as [Hlist Halg].
  destruct (compare_lookup fs M) as (d & Hc & Hd).
  { exact Halg. }
  { intros q _ Hq. by apply not_elem_of_nil in Hq. }
  rewrite Hc. split; [done|]. split.
  - intros p. unfold diff_of. cbn [snd diffs set_diffs mbind option_bind].
    rewrite Hd. cbn [M VersionManager_build set_curVersions curVersions lastVersions].
    rewrite Hlist. cbn [vt_fileList VersionTable_init].
    assert (sorted [] = []) as -> by reflexivity.
    destruct (decide (p ∈ sorted fl)) as [Hp|Hp], (decide (p ∈ fl)) as [Hp'|Hp'];
      rewrite ?elem_of_sorted in Hp; try done;
      destruct (decide (p ∈ [])) as [Hn|]; try (by apply not_elem_of_nil in Hn); done.
  - unfold hasVersionChanged. cbn [snd set_diffs curVersions lastVersions].
    unfold M, VersionManager_build, set_curVersions. cbn [curVersions lastVersions].
    rewrite VersionTable_build_version. reflexivity.
Qed.

(** Second run: after a previous run of a manager fresh from
    [VersionManager(...)] on [fs_prev] whose table was persisted, entering
    on [fs] raises nothing in [compare()]; every tracked path gets an entry,
    "new & missing" unless the file exists both then and now, in which case
    it holds the line differences; other paths get none. As for the first
    run, the algorithm is neither a [HashWrapper] one nor a shake one, and
    every tracked path that exists is a readable text file. *)
Theorem second_run_entries env rev fl alg w g fs_prev fs m p :
  VersionManager_init env rev fl alg w = inr (g, m) ->
  py_in alg WRAPPED_ALGORITHMS = false ->
  py_in alg XOF_ALGORITHMS = false ->
  fst (VersionManager_enter backend g fs (persisted backend g fs_prev m) m) = None /\
  diff_of (VersionManager_enter backend g fs (persisted backend g fs_prev m) m) p =
    if decide (p ∈ vt_fileList (curVersions m)) then
      Some (match fs_prev !! p, fs !! p with
            | Some l1, Some l2 => line_diff backend g l1 l2
            | _, _ => mkDiffFile true true [] []
            end)
    else None.
Proof.
  intros _ _ _.
  destruct (enter_persisted_lookup g fs_prev fs m) as (d & Hc & Hd).
  rewrite Hc. split; [done|]. unfold diff_of. cbn. apply Hd.
Qed.

(** Re-entering on unchanged files: no exception, [hasVersionChanged()]
    is false and every existing tracked file is reported unchanged with
    empty line lists. *)
Theorem rerun_on_same_files_unchanged g fs m :
  fst (VersionManager_enter backend g fs (persisted backend g fs m) m) = None /\
  hasVersionChanged (VersionManager_enter backend g fs (persisted backend g fs m) m).2 = false /\
  forall p, p ∈ vt_fileList (curVersions m) -> is_Some (fs !! p) ->
    diff_of (VersionManager_enter backend g fs (persisted backend g fs m) m) p =
    Some (mkDiffFile false false [] []).
Proof.
  destruct (enter_persisted_lookup g fs fs m) as (d & Hc & Hd).
  rewrite Hc. split; [done|]. split.
  - unfold hasVersionChanged. cbn [snd set_diffs curVersions lastVersions].
    rewrite persisted_build. cbn. by rewrite bool_decide_eq_true_2.
  - intros p Hp [l Hl]. unfold diff_of. cbn [snd diffs set_diffs mbind option_bind].
    rewrite Hd, decide_True by done. rewrite Hl. unfold line_diff.
    rewrite keys_minus_nil by done. reflexivity.
Qed.

(** For a file present in both runs, [modifiedLines] holds exactly the
    1-based numbers of the current lines whose digest no previous line has,
    each at the last line with that digest; [missingLines] is the same with
    the two contents swapped. *)
Theorem second_run_changed_lines g fs_prev fs m p l1 l2 :
  p ∈ vt_fileList (curVersions m) -> fs_prev !! p = Some l1 -> fs !! p = Some l2 ->
  exists df,
    diff_of (VersionManager_enter backend g fs (persisted backend g fs_prev m) m) p = Some df /\
    missing df = false /\ new df = false /\
    (forall n, n ∈ modifiedLines df <->
       exists i line, n = S i /\ l2 !! i = Some line /\
         (forall line', line' ∈ l1 -> HashObject_hash backend g line' <> HashObject_hash backend g line) /\
         (forall j line', i < j -> l2 !! j = Some line' ->
            HashObject_hash backend g line' <> HashObject_hash backend g line)) /\
    (forall n, n ∈ missingLines df <->
       exists i line, n = S i /\ l1 !! i = Some line /\
         (forall line', line' ∈ l2 -> HashObject_hash backend g line' <> HashObject_hash backend g line) /\
         (forall j line', i < j -> l1 !! j = Some line' ->
            HashObject_hash backend g line' <> HashObject_hash backend g line)).
Proof.
  intros Hp H1 H2.
  destruct (enter_persisted_lookup g fs_prev fs m) as (d & Hc & Hd).
  exists (line_diff backend g l1 l2). split.
  { rewrite Hc. unfold diff_of. cbn [snd diffs set_diffs mbind option_bind].
    by rewrite Hd, decide_True, H1, H2. }
  split; [done|]. split; [done|]. split; [apply line_diff_modified|].
  intros n. apply (line_diff_modified g l2 l1 n).
Qed.


Lemma lineHash_fold_range g lines d n :
  lineHash_fold backend g lines 1 ∅ !! d = Some n -> 1 <= n <= length lines.
Proof.
  rewrite lineHash_fold_lookup, lookup_empty.
  intros [(i & line & -> & Hi & _)|[? _]]; [|done].
  apply lookup_lt_Some in Hi. lia.
Qed.

Lemma lineHash_fold_inj g lines d1 d2 n :
  lineHash_fold backend g lines 1 ∅ !! d1 = Some n ->
  lineHash_fold backend g lines 1 ∅ !! d2 = Some n -> d1 = d2.
Proof.
  rewrite !lineHash_fold_lookup, !lookup_empty.
  intros [(i1 & line1 & -> & Hi1 & <- & _)|[? _]]; [|done].
  intros [(i2 & line2 & Heq & Hi2 & <- & _)|[? _]]; [|done].
  assert (i1 = i2) as <- by lia. congruence.
Qed.

Lemma NoDup_omap_inj {A B} (f : A -> option B) (l : list A) :
  NoDup l -> (forall x y z, f x = Some z -> f y = Some z -> x = y) -> NoDup (omap f l).
Proof.
  intros Hl Hf. induction Hl as [|x l Hx Hl IH]; [constructor|]. simpl.
  destruct (f x) as [z|] eqn:Hz; [|exact IH]. constructor; [|exact IH].
  intros Hin. apply list_elem_of_omap in Hin as (y & Hy & Hfy).
  assert (x = y) as -> by (eapply Hf; eauto). done.
Qed.

Lemma NoDup_sorted_keys_minus (a b : gmap string nat) : NoDup (sorted (keys_minus a b)).
Proof.
  unfold sorted. rewrite merge_sort_Permutation. unfold keys_minus.
  apply NoDup_filter. apply NoDup_fst_map_to_list.
Qed.

(** [FileVersion.build]'s line map sends digests to line numbers between 1
    and the number of lines, never two digests to the same number, and has
    an entry for the digest of every line. *)
Theorem lineHash_values_are_line_numbers g p a lines cb :
  let lh := fv_lineHash (FileVersion_build backend g (FileVersion_init p a) lines cb).1 in
  (forall d n, lh !! d = Some n -> 1 <= n <= length lines) /\
  (forall d1 d2 n, lh !! d1 = Some n -> lh !! d2 = Some n -> d1 = d2) /\
  (forall line, line ∈ lines -> is_Some (lh !! HashObject_hash backend g line)).
Proof.
  rewrite FileVersion_build_init. cbn [fst built_fv fv_lineHash].
  split; [apply lineHash_fold_range|]. split; [apply lineHash_fold_inj|].
  intros line Hin. apply lineHash_fold_is_Some. left. by exists line.
Qed.

(** [getFileVersions]: on a table never built it raises
    [AttributeError] whatever the format; after [build()], "json" maps each
    existing tracked path to its file digest, and a format other than
    "text" and "json" raises [RuntimeError]. *)
Theorem getFileVersions_formats g fs m fmt :
  (vt_fileVersions (curVersions m) = None -> getFileVersions m fmt = inl AttributeError) /\
  (fmt = "json"%string ->
     exists versions,
       getFileVersions (VersionManager_build backend g fs m) fmt = inr (FVJson versions) /\
       forall p, versions !! p =
         if decide (p ∈ vt_fileList (curVersions m))
         then (fun lines => Some (backend (ho_backend g) (String.concat "" lines))) <$> fs !! p
         else None) /\
  (fmt <> "text"%string -> fmt <> "json"%string ->
     getFileVersions (VersionManager_build backend g fs m) fmt =
       inl (RuntimeError ("Unknown format " ++ py_repr fmt))).
Proof.
  split; [by unfold getFileVersions; intros ->|].
  unfold getFileVersions, VersionManager_build. cbn [curVersions set_curVersions].
  rewrite VersionTable_build_fileVersions. split.
  - intros ->. cbn. eexists. split; [reflexivity|]. intros p.
    rewrite lookup_fmap, build_files_lookup, lookup_empty.
    case_decide; [|done]. by destruct (fs !! p).
  - intros Ht Hj. destruct (String.eqb_spec fmt "text"); [done|].
    destruct (String.eqb_spec fmt "json"); done.
Qed.

(** In a second run no entry lists a line number twice, in
    [modifiedLines] or in [missingLines]. *)
Theorem second_run_line_lists_nodup g fs_prev fs m p df :
  diff_of (VersionManager_enter backend g fs (persisted backend g fs_prev m) m) p = Some df ->
  NoDup (modifiedLines df) /\ NoDup (missingLines df).
Proof.
  destruct (enter_persisted_lookup g fs_prev fs m) as (d & Hc & Hd).
  rewrite Hc. unfold diff_of. cbn [snd diffs set_diffs mbind option_bind]. rewrite Hd.
  case_decide; [|done]. intros [= <-].
  destruct (fs_prev !! p) as [l1|], (fs !! p) as [l2|]; try (split; constructor).
  unfold line_diff. cbn [modifiedLines missingLines].
  split; apply NoDup_omap_inj; try apply NoDup_sorted_keys_minus;
    intros x y z Hx Hy; eapply lineHash_fold_inj; eauto.
Qed.

End Sessions.

(** ** Witnesses of the sessions *)

Lemma xxh32_digests_are_xxh64_witness :
  getVersion (VersionManager_build md5_sample (mkHashObject "xxh32" "xxh64") fs_a_ab
                (mkVersionManager "rev" (VersionTable_init ["a.txt"%string] "xxh32")
                   (VersionTable_init [] "xxh32") false None)) =
  getVersion (VersionManager_build md5_sample (mkHashObject "xxh64" "xxh64") fs_a_ab
                (mkVersionManager "rev" (VersionTable_init ["a.txt"%string] "xxh64")
                   (VersionTable_init [] "xxh64") false None)).
Proof.
  destruct (xxh32_digests_are_xxh64 md5_sample example_env "rev" ["a.txt"%string] false
              (mkHashObject "xxh32" "xxh64")
              (mkVersionManager "rev" (VersionTable_init ["a.txt"%string] "xxh32")
                 (VersionTable_init [] "xxh32") false None)
              (mkHashObject "xxh64" "xxh64")
              (mkVersionManager "rev" (VersionTable_init ["a.txt"%string] "xxh64")
                 (VersionTable_init [] "xxh64") false None)
              fs_a_ab "a.txt") as [H _].
  - vm_compute. reflexivity.
  - vm_compute. reflexivity.
  - exact H.
Defined.

Lemma write_builds_unbuilt_table_witness :
  exists r, VersionManager_write md5_sample md5_obj fs_a_ab fresh_manager =
            inr (r, VersionManager_build md5_sample md5_obj fs_a_ab fresh_manager).
Proof.
  destruct (write_builds_unbuilt_table md5_sample md5_obj fs_a_ab fresh_manager)
    as (r & H & _).
  - vm_compute. reflexivity.
  - exists r. exact H.
Defined.

Lemma first_run_reports_all_new_witness :
  hasVersionChanged (VersionManager_enter md5_sample md5_obj fs_a_ab None fresh_manager).2
  = true.
Proof.
  destruct (first_run_reports_all_new md5_sample example_env "rev" ["a.txt"%string] "md5" false
              md5_obj fresh_manager fs_a_ab) as (_ & _ & H).
  - vm_compute. reflexivity.
  - vm_compute. reflexivity.
  - vm_compute. reflexivity.
  - exact H.
Defined.

Lemma second_run_entries_witness :
  diff_of (VersionManager_enter md5_sample md5_obj fs_a_empty
             (persisted md5_sample md5_obj fs_a_xy fresh_manager) fresh_manager) "a.txt"
  = Some (line_diff md5_sample md5_obj ["x" ++ nl; "y" ++ nl]%string []).
Proof.
  destruct (second_run_entries md5_sample example_env "rev" ["a.txt"%string] "md5" false
              md5_obj fs_a_xy fs_a_empty fresh_manager "a.txt") as [_ H].
  - vm_compute. reflexivity.
  - vm_compute. reflexivity.
  - vm_compute. reflexivity.
  - rewrite H. vm_compute. reflexivity.
Defined.

Lemma second_run_changed_lines_witness :
  exists df,
    diff_of (VersionManager_enter md5_sample md5_obj fs_a_x
               (persisted md5_sample md5_obj fs_a_xy fresh_manager) fresh_manager) "a.txt"
    = Some df /\ missing df = false.
Proof.
  destruct (second_run_changed_lines md5_sample md5_obj fs_a_xy fs_a_x fresh_manager "a.txt"
              ["x" ++ nl; "y" ++ nl]%string ["x" ++ nl]%string) as (df & H & Hm & _).
  - vm_compute. left.
  - vm_compute. reflexivity.
  - vm_compute. reflexivity.
  - exists df. split; [exact H|exact Hm].
Defined.

Lemma second_run_line_lists_nodup_witness :
  NoDup (@nil nat) /\ NoDup [2].
Proof.
  apply (second_run_line_lists_nodup md5_sample md5_obj fs_a_xy fs_a_x fresh_manager "a.txt"
           (mkDiffFile false false [] [2])).
  vm_compute. reflexivity.
Defined.
